(** * Token lifecycle of the Express/Prisma authentication service

    A shallow embedding of [utils/jwt.ts] ([JwtUtils]) and of
    [controllers/authController.ts] ([AuthController]), together with the
    properties of the token lifecycle: issuing, refreshing and revoking.

    Conventions.
    - JavaScript strings are [string]; a value that may be [undefined] or
      [null] is an [option]; [truthy] is JavaScript's truthiness on them.
    - Instants are milliseconds since the epoch, in [Z]; a [Date] object is a
      [JsDate], which is either a valid instant or the Invalid Date.
    - An exception is the [Throw] case of [result]; the handlers' outer
      [try]/[catch] turns it into the 500 response.
    - The two Prisma tables are the record [Db]: the users in insertion
      order, the refresh tokens as a finite map keyed by the [@unique]
      column [token]. *)

From Stdlib Require Import ZArith Lia List Ascii String Bool.
From stdpp Require Import base option gmap strings list fin_maps pretty.

Local Open Scope Z_scope.

(** ** JavaScript values *)

Inductive result (A : Type) : Type :=
| Ok (a : A)
| Throw (msg : string).
Arguments Ok {A} a.
Arguments Throw {A} msg.

(** [!!v] for a value that is a string when it is present: [undefined],
    [null] and the empty string are falsy. *)
Definition truthy (v : option string) : bool :=
  match v with
  | Some (String _ _) => true
  | _ => false
  end.

(** [s.startsWith(p)] *)
Fixpoint startsWith (s p : string) {struct p} : bool :=
  match p, s with
  | EmptyString, _ => true
  | String c p', String d s' => if Ascii.eqb c d then startsWith s' p' else false
  | String _ _, EmptyString => false
  end.

(** [s.substring(n)] *)
Fixpoint substring_from (n : nat) (s : string) : string :=
  match n, s with
  | O, _ => s
  | S n', String _ s' => substring_from n' s'
  | S _, EmptyString => EmptyString
  end.

(** A [Date] object: its time value is an integral number of milliseconds
    within 8.64e15 of the epoch, or NaN (the Invalid Date). *)
Inductive JsDate : Type :=
| ValidDate (t : Z)
| InvalidDate.

Definition maxTimeValue : Z := 8640000000000000.

(** [new Date(t)] for a number [t]: the TimeClip of ECMAScript. *)
Definition newDate (t : Z) : JsDate :=
  if (Z.abs t <=? maxTimeValue) then ValidDate t else InvalidDate.

(** ** Tokens and the signing library

    [jsonwebtoken] and [bcryptjs] are external packages.  Their primitives
    are the fields of two classes; what [jwt.sign] and [jwt.verify] do
    around the primitives (the secret must be set, the [exp] claim is
    computed when signing and compared with the clock when verifying) is
    written out below. *)

(** The object given to [jwt.sign]: [{userId, email}] for an access token,
    [{userId, tokenId}] for a refresh token. *)
Module Payload.
Record t : Type := mk {
  userId : string;
  email : option string;
  tokenId : option string
}.
End Payload.

(** The claims of a token: the payload with [iat] and [exp], in seconds. *)
Module Claims.
Record t : Type := mk {
  payload : Payload.t;
  iat : Z;
  exp : option Z
}.
End Claims.

Class Jsonwebtoken : Type := {
  (** the compact serialisation of the claims, signed with the secret *)
  jws_sign : string -> Claims.t -> string;
  (** the claims of a well-formed token whose signature the secret verifies *)
  jws_verify : string -> string -> option Claims.t;
  (** a time span such as ["15m"] in whole seconds: [floor(ms(span) / 1000)] *)
  timespan : string -> option Z
}.

Class Bcryptjs : Type := {
  (** [bcrypt.hash(password, rounds)] with the salt it draws *)
  bcrypt_hash : string -> Z -> string -> string;
  (** [bcrypt.compare(password, hash)] *)
  bcrypt_compare : string -> string -> bool
}.

(** [process.env] *)
Record Env : Type := mkEnv {
  JWT_ACCESS_SECRET : option string;
  JWT_REFRESH_SECRET : option string;
  JWT_ACCESS_EXPIRES_IN : option string;
  JWT_REFRESH_EXPIRES_IN : option string;
  NODE_ENV : option string
}.

(** [v || d] for a string [d] *)
Definition orDefault (v : option string) (d : string) : string :=
  match v with
  | Some (String c s) => String c s
  | _ => d
  end.

Module Jwt.
Section Library.
Context {jwtLib : Jsonwebtoken}.

(** [jwt.sign(payload, secret, {expiresIn})] when the clock reads [now] *)
Definition sign (p : Payload.t) (secret : option string) (expiresIn : string)
    (now : Z) : result string :=
  match secret with
  | Some (String c k) =>
      match timespan expiresIn with
      | Some span =>
          let iat := now / 1000 in
          Ok (jws_sign (String c k) (Claims.mk p iat (Some (iat + span))))
      | None => Throw "expiresIn should be a number of seconds or string representing a timespan"
      end
  | _ => Throw "secretOrPrivateKey must have a value"
  end.

(** [jwt.verify(token, secret)] when the clock reads [now] *)
Definition verify (token : string) (secret : option string) (now : Z)
    : result Claims.t :=
  match secret with
  | Some (String c k) =>
      match jws_verify (String c k) token with
      | Some claims =>
          match Claims.exp claims with
          | Some e => if e <=? now / 1000 then Throw "jwt expired" else Ok claims
          | None => Ok claims
          end
      | None => Throw "invalid token"
      end
  | _ => Throw "secret or public key must be provided"
  end.

End Library.
End Jwt.

(** ** utils/jwt.ts *)

Module JwtUtils.

(** The character class [\d] of the pattern. *)
Definition isDigit (c : ascii) : bool :=
  let n := nat_of_ascii c in ((48 <=? n)%nat && (n <=? 57)%nat)%bool.

(** The character class [[smhd]] of the pattern. *)
Definition isUnit (c : ascii) : bool :=
  (Ascii.eqb c "s" || Ascii.eqb c "m" || Ascii.eqb c "h" || Ascii.eqb c "d")%bool.

(** The longest prefix of digits, and what follows it: the greedy [\d+]. *)
Fixpoint spanDigits (s : string) : string * string :=
  match s with
  | EmptyString => (EmptyString, EmptyString)
  | String c s' =>
      if isDigit c
      then let '(ds, rest) := spanDigits s' in (String c ds, rest)
      else (EmptyString, s)
  end.

(** [expiresIn.match(/^(\d+)([smhd])$/)]: the two captured groups, or
    [None] for JavaScript's [null].  No digit is a unit letter, so the
    greedy match of [\d+] never has to give a character back. *)
Definition matchDuration (expiresIn : string) : option (string * ascii) :=
  match spanDigits expiresIn with
  | (EmptyString, _) => None
  | (ds, String u EmptyString) => if isUnit u then Some (ds, u) else None
  | (_, _) => None
  end.

(** [parseInt(ds)] for a string of decimal digits. *)
Definition digitValue (c : ascii) : Z := Z.of_nat (nat_of_ascii c) - 48.

Fixpoint parseIntFrom (acc : Z) (ds : string) : Z :=
  match ds with
  | EmptyString => acc
  | String c ds' => parseIntFrom (10 * acc + digitValue c) ds'
  end.

Definition parseInt (ds : string) : Z := parseIntFrom 0 ds.

(** [getTokenExpiration(expiresIn)] when [new Date()] reads [now].

    The arithmetic is on [Z].  For a clock reading [now] that is a time
    value (at most 8.64e15 in magnitude) this is what the doubles compute:
    whenever the exact sum lies within the range of a Date every
    intermediate product is an integer that a double holds exactly, and a
    magnitude too large for that makes the rounded sum exceed the range as
    well, so that [newDate] clips it either way. *)
Definition getTokenExpiration (now : Z) (expiresIn : string) : result JsDate :=
  match matchDuration expiresIn with
  | None => Throw "Invalid expiration format"
  | Some (digits, unit) =>
      let value := parseInt digits in
      if Ascii.eqb unit "s" then Ok (newDate (now + value * 1000))
      else if Ascii.eqb unit "m" then Ok (newDate (now + value * 60 * 1000))
      else if Ascii.eqb unit "h" then Ok (newDate (now + value * 60 * 60 * 1000))
      else if Ascii.eqb unit "d" then Ok (newDate (now + value * 24 * 60 * 60 * 1000))
      else Throw "Invalid time unit"
  end.

(** [extractTokenFromHeader(authHeader)] *)
Definition extractTokenFromHeader (authHeader : option string) : option string :=
  match authHeader with
  | None => None
  | Some h =>
      if (negb (truthy (Some h)) || negb (startsWith h "Bearer "))%bool
      then None
      else Some (substring_from 7 h)
  end.

Section WithLibrary.
Context {jwtLib : Jsonwebtoken} (env : Env).

Definition accessSecret : option string := JWT_ACCESS_SECRET env.
Definition refreshSecret : option string := JWT_REFRESH_SECRET env.
Definition accessExpiresIn : string := orDefault (JWT_ACCESS_EXPIRES_IN env) "15m".
Definition refreshExpiresIn : string := orDefault (JWT_REFRESH_EXPIRES_IN env) "7d".

Definition generateAccessToken (p : Payload.t) (now : Z) : result string :=
  Jwt.sign p accessSecret accessExpiresIn now.

Definition generateRefreshToken (p : Payload.t) (now : Z) : result string :=
  Jwt.sign p refreshSecret refreshExpiresIn now.

Definition verifyAccessToken (token : string) (now : Z) : result Claims.t :=
  match Jwt.verify token accessSecret now with
  | Ok claims => Ok claims
  | Throw _ => Throw "Invalid access token"
  end.

Definition verifyRefreshToken (token : string) (now : Z) : result Claims.t :=
  match Jwt.verify token refreshSecret now with
  | Ok claims => Ok claims
  | Throw _ => Throw "Invalid refresh token"
  end.

End WithLibrary.
End JwtUtils.

(** ** The Prisma tables *)

Module User.
Record t : Type := mk {
  id : string;
  email : string;
  password : string;
  firstName : option string;
  lastName : option string;
  isActive : bool;
  createdAt : Z;
  updatedAt : Z
}.

(** The row with another [password] column. *)
Definition withPassword (h : string) (u : t) : t :=
  mk (id u) (email u) h (firstName u) (lastName u) (isActive u) (createdAt u) (updatedAt u).
End User.

(** What [select: {id, email, firstName, lastName, isActive, createdAt,
    updatedAt}] returns of a user row. *)
Module Selected.
Record t : Type := mk {
  id : string;
  email : string;
  firstName : option string;
  lastName : option string;
  isActive : bool;
  createdAt : Z;
  updatedAt : Z
}.

Definition of_user (u : User.t) : t :=
  mk (User.id u) (User.email u) (User.firstName u) (User.lastName u)
     (User.isActive u) (User.createdAt u) (User.updatedAt u).
End Selected.

(** A row of [RefreshToken] without its [token] column, which is the key of
    the table, and without the surrogate [id], which the service never
    reads. *)
Module RefreshToken.
Record t : Type := mk {
  userId : string;
  expiresAt : Z;
  createdAt : Z;
  updatedAt : Z
}.
End RefreshToken.

Record Db : Type := mkDb {
  users : list User.t;
  refreshTokens : gmap string RefreshToken.t
}.

(** What a handler reads from outside during one request: the clock at each
    successive reading, the [cuid()] of the row it may insert, the salt of
    [bcrypt.hash] and the rendering of [Math.random()]. *)
Record World : Type := mkWorld {
  clock : nat -> Z;
  cuid : string;
  salt : string;
  random : string
}.

(** ** The monad of a handler body: the tables, the clock, exceptions *)

Record St : Type := mkSt {
  db : Db;
  reads : nat
}.

Definition M (A : Type) : Type := St -> result A * St.

Definition ret {A} (a : A) : M A := fun st => (Ok a, st).

Definition bind {A B} (m : M A) (k : A -> M B) : M B :=
  fun st =>
    match m st with
    | (Ok a, st') => k a st'
    | (Throw e, st') => (Throw e, st')
    end.

Notation "x <- c1 ;; c2" := (bind c1 (fun x => c2))
  (at level 100, c1 at next level, right associativity).

(** a call that may throw *)
Definition lift {A} (r : result A) : M A := fun st => (r, st).

(** [try { c } catch { h }] around a call *)
Definition tryCatch {A} (c : M A) (h : M A) : M A :=
  fun st =>
    match c st with
    | (Ok a, st') => (Ok a, st')
    | (Throw _, st') => h st'
    end.

Definition getDb : M Db := fun st => (Ok (db st), st).

Definition putDb (d : Db) : M unit := fun st => (Ok tt, mkSt d (reads st)).

Section Prisma.
Context (w : World).

(** [new Date()], [Date.now()], and the database's [now()] *)
Definition tick : M Z :=
  fun st => (Ok (clock w (reads st)), mkSt (db st) (S (reads st))).

Definition findByEmail (email : string) (us : list User.t) : option User.t :=
  List.find (fun u => String.eqb (User.email u) email) us.

Definition findById (id : string) (us : list User.t) : option User.t :=
  List.find (fun u => String.eqb (User.id u) id) us.

(** [prisma.user.findUnique({where: {email}})] *)
Definition user_findUnique_email (email : string) : M (option User.t) :=
  d <- getDb ;; ret (findByEmail email (users d)).

(** [prisma.user.create({data: {email, password, firstName, lastName},
    select})]: [id], [isActive], [createdAt] and [updatedAt] take their
    defaults; [id] and [email] are unique. *)
Definition user_create (email password : string) (firstName lastName : option string)
    : M Selected.t :=
  now <- tick ;;
  d <- getDb ;;
  match findById (cuid w) (users d), findByEmail email (users d) with
  | None, None =>
      let u := User.mk (cuid w) email password firstName lastName true now now in
      _ <- putDb (mkDb (users d ++ [u]) (refreshTokens d)) ;;
      ret (Selected.of_user u)
  | _, _ => lift (Throw "Unique constraint failed")
  end.

(** [prisma.refreshToken.create({data: {token, userId, expiresAt}})]:
    [token] is unique, [userId] refers to a user, [expiresAt] must be a valid
    date. *)
Definition refreshToken_create (token userId : string) (expiresAt : JsDate) : M unit :=
  now <- tick ;;
  d <- getDb ;;
  match expiresAt with
  | InvalidDate => lift (Throw "Invalid value for argument expiresAt")
  | ValidDate e =>
      match refreshTokens d !! token, findById userId (users d) with
      | None, Some _ =>
          putDb (mkDb (users d)
                      (<[token := RefreshToken.mk userId e now now]> (refreshTokens d)))
      | Some _, _ => lift (Throw "Unique constraint failed")
      | None, None => lift (Throw "Foreign key constraint failed")
      end
  end.

(** [prisma.refreshToken.findUnique({where: {token}, include: {user: true}})] *)
Definition refreshToken_findUnique_include_user (token : string)
    : M (option (RefreshToken.t * option User.t)) :=
  d <- getDb ;;
  ret (match refreshTokens d !! token with
       | Some row => Some (row, findById (RefreshToken.userId row) (users d))
       | None => None
       end).

(** [prisma.refreshToken.deleteMany({where: {token}})], with its count *)
Definition refreshToken_deleteMany_token (token : string) : M nat :=
  d <- getDb ;;
  _ <- putDb (mkDb (users d) (delete token (refreshTokens d))) ;;
  ret (match refreshTokens d !! token with Some _ => 1%nat | None => 0%nat end).

(** [prisma.refreshToken.deleteMany({where: {userId}})], with its count *)
Definition refreshToken_deleteMany_userId (userId : string) : M nat :=
  d <- getDb ;;
  let kept := filter (fun kv => RefreshToken.userId kv.2 <> userId) (refreshTokens d) in
  _ <- putDb (mkDb (users d) kept) ;;
  ret (size (refreshTokens d) - size kept)%nat.

End Prisma.

(** ** Requests and responses *)

(** [req.body] once it is an object: the fields of [RegisterRequest] and
    [LoginRequest], each a string when present. *)
Module Body.
Record t : Type := mk {
  email : option string;
  password : option string;
  firstName : option string;
  lastName : option string
}.
End Body.

Module Cookies.
Record t : Type := mk {
  accessToken : option string;
  refreshToken : option string
}.
End Cookies.

(** [req.user], set by the [authenticateToken] middleware *)
Module AuthUser.
Record t : Type := mk {
  userId : string;
  email : string
}.
End AuthUser.

Module Request.
Record t : Type := mk {
  (** [None] when [req.body] is missing or is not an object *)
  body : option Body.t;
  cookies : option Cookies.t;
  (** [req.headers.authorization] *)
  authorization : option string;
  user : option AuthUser.t
}.
End Request.

(** A value of the JSON body. *)
Inductive Json : Type :=
| JString (s : string)
| JBool (b : bool)
| JDate (t : Z).

(** An object literal as its fields in order; a field whose value is
    [undefined] is not a member. *)
Definition JsonObject : Type := list (string * Json).

Definition field (name : string) (v : Json) : JsonObject := [(name, v)].

Definition optionalField (name : string) (v : option string) : JsonObject :=
  match v with
  | Some (String c s) => [(name, JString (String c s))]
  | _ => []
  end.

Inductive ResponseData : Type :=
| AuthResponse (user : JsonObject) (accessToken : string)
| AccessTokenData (accessToken : string).

Record ApiResponse : Type := mkApiResponse {
  success : bool;
  message : string;
  error : option string;
  data : option ResponseData
}.

Record CookieOptions : Type := mkCookieOptions {
  httpOnly : bool;
  secure : bool;
  sameSite : string;
  path : string;
  maxAge : Z
}.

(** [res.cookie(name, value, options)] and [res.clearCookie(name)] *)
Inductive CookieOp : Type :=
| SetCookie (name value : string) (options : CookieOptions)
| ClearCookie (name : string).

(** What a handler sends: the cookie operations, then
    [res.status(status).json(json)]. *)
Record Response : Type := mkResponse {
  status : Z;
  json : ApiResponse;
  cookieOps : list CookieOp
}.

Definition failure (st : Z) (msg err : string) : Response :=
  mkResponse st (mkApiResponse false msg (Some err) None) [].

(** The string of a value known to be truthy. *)
Definition str (v : option string) : string :=
  match v with
  | Some s => s
  | None => EmptyString
  end.

(** The handler's outer [try]/[catch]: what it sends, and the tables it
    leaves behind. *)
Definition handle (logPrefix : string) (body : M Response) (d : Db) : Response * Db :=
  match body (mkSt d 0%nat) with
  | (Ok r, st) => (r, db st)
  | (Throw _, st) => (failure 500 "Internal server error" "INTERNAL_ERROR", db st)
  end.

(** ** controllers/authController.ts *)

Module AuthController.
Section Handlers.
Context {jwtLib : Jsonwebtoken} {bcryptLib : Bcryptjs} (env : Env) (w : World).

Definition isProduction : bool :=
  match NODE_ENV env with
  | Some s => String.eqb s "production"
  | None => false
  end.

Definition accessCookie (value : string) : CookieOp :=
  SetCookie "accessToken" value
    (mkCookieOptions true isProduction "strict" "/" (15 * 60 * 1000)).

Definition refreshCookie (value : string) : CookieOp :=
  SetCookie "refreshToken" value
    (mkCookieOptions true isProduction "strict" "/" (7 * 24 * 60 * 60 * 1000)).

(** The object literal of the user in the responses of [register] and
    [login]; [firstName || undefined] leaves the field out when the name is
    null or empty. *)
Definition userObject (id email : string) (firstName lastName : option string)
    (isActive : bool) (createdAt updatedAt : Z) : JsonObject :=
  field "id" (JString id) ++ field "email" (JString email)
  ++ optionalField "firstName" firstName ++ optionalField "lastName" lastName
  ++ field "isActive" (JBool isActive)
  ++ field "createdAt" (JDate createdAt) ++ field "updatedAt" (JDate updatedAt).

Definition invalidBody : Response :=
  failure 400
    "Request body is missing or invalid. Please send JSON data with Content-Type: application/json"
    "INVALID_REQUEST_BODY".

Definition validationError : Response :=
  failure 400 "Email and password are required" "VALIDATION_ERROR".

(** The tokens of a new session, lines 83-107 and 226-250: mint both,
    compute the expiry, store the refresh token. *)
Definition issueTokens (userId email : string) : M (string * string) :=
  now <- tick w ;;
  accessToken <- lift (JwtUtils.generateAccessToken env
                         (Payload.mk userId (Some email) None) now) ;;
  dateNow <- tick w ;;
  let tokenId := "refresh_" +:+ pretty dateNow +:+ "_" +:+ random w in
  now' <- tick w ;;
  refreshToken <- lift (JwtUtils.generateRefreshToken env
                          (Payload.mk userId None (Some tokenId)) now') ;;
  now'' <- tick w ;;
  expiresAt <- lift (JwtUtils.getTokenExpiration now''
                       (orDefault (JWT_REFRESH_EXPIRES_IN env) "7d")) ;;
  _ <- refreshToken_create w refreshToken userId expiresAt ;;
  ret (accessToken, refreshToken).

Definition register (req : Request.t) : Db -> Response * Db :=
  handle "Registration error:"
    match Request.body req with
    | None => ret invalidBody
    | Some body =>
        if (negb (truthy (Body.email body)) || negb (truthy (Body.password body)))%bool
        then ret validationError
        else
          let email := str (Body.email body) in
          let password := str (Body.password body) in
          existingUser <- user_findUnique_email email ;;
          match existingUser with
          | Some _ =>
              ret (failure 409 "User with this email already exists" "USER_EXISTS")
          | None =>
              let saltRounds := 12 in
              let hashedPassword := bcrypt_hash password saltRounds (salt w) in
              user <- user_create w email hashedPassword
                        (Body.firstName body) (Body.lastName body) ;;
              tokens <- issueTokens (Selected.id user) (Selected.email user) ;;
              let '(accessToken, refreshToken) := tokens in
              ret (mkResponse 201
                     (mkApiResponse true "User registered successfully" None
                        (Some (AuthResponse
                                 (userObject (Selected.id user) (Selected.email user)
                                    (Selected.firstName user) (Selected.lastName user)
                                    (Selected.isActive user)
                                    (Selected.createdAt user) (Selected.updatedAt user))
                                 accessToken)))
                     [accessCookie accessToken; refreshCookie refreshToken])
          end
    end.

Definition invalidCredentials : Response :=
  failure 401 "Invalid email or password" "INVALID_CREDENTIALS".

Definition accountDeactivated : Response :=
  failure 401 "Account is deactivated" "ACCOUNT_DEACTIVATED".

Definition login (req : Request.t) : Db -> Response * Db :=
  handle "Login error:"
    match Request.body req with
    | None => ret invalidBody
    | Some body =>
        if (negb (truthy (Body.email body)) || negb (truthy (Body.password body)))%bool
        then ret validationError
        else
          let email := str (Body.email body) in
          let password := str (Body.password body) in
          found <- user_findUnique_email email ;;
          match found with
          | None => ret invalidCredentials
          | Some user =>
              if negb (User.isActive user) then ret accountDeactivated
              else
                let isPasswordValid := bcrypt_compare password (User.password user) in
                if negb isPasswordValid then ret invalidCredentials
                else
                  tokens <- issueTokens (User.id user) (User.email user) ;;
                  let '(accessToken, refreshToken) := tokens in
                  let userResponse :=
                    userObject (User.id user) (User.email user)
                      (User.firstName user) (User.lastName user) (User.isActive user)
                      (User.createdAt user) (User.updatedAt user) in
                  ret (mkResponse 200
                         (mkApiResponse true "Login successful" None
                            (Some (AuthResponse userResponse accessToken)))
                         [accessCookie accessToken; refreshCookie refreshToken])
          end
    end.

(** [req.cookies?.refreshToken] *)
Definition cookieRefreshToken (req : Request.t) : option string :=
  match Request.cookies req with
  | Some c => Cookies.refreshToken c
  | None => None
  end.

(** Lines 307-315 of [refreshToken]: the token of the cookie, else the one
    of a Bearer authorization header. *)
Definition presentedRefreshToken (req : Request.t) : option string :=
  let refreshToken := cookieRefreshToken req in
  if (negb (truthy refreshToken) && truthy (Request.authorization req))%bool
  then
    let authHeader := str (Request.authorization req) in
    if startsWith authHeader "Bearer "
    then Some (substring_from 7 authHeader)
    else refreshToken
  else refreshToken.

Definition refreshTokenRequired : Response :=
  failure 401 "Refresh token is required" "REFRESH_TOKEN_REQUIRED".

Definition invalidRefreshToken : Response :=
  failure 401 "Invalid refresh token" "INVALID_REFRESH_TOKEN".

Definition refreshTokenExpired : Response :=
  failure 401 "Refresh token expired or invalid" "REFRESH_TOKEN_EXPIRED".

Definition tokenRefreshed (newAccessToken : string) : Response :=
  mkResponse 200
    (mkApiResponse true "Token refreshed successfully" None
       (Some (AccessTokenData newAccessToken)))
    [accessCookie newAccessToken].

Definition refreshToken (req : Request.t) : Db -> Response * Db :=
  handle "Token refresh error:"
    (let refreshToken := presentedRefreshToken req in
     if negb (truthy refreshToken) then ret refreshTokenRequired
     else
       let token := str refreshToken in
       decoded <- tryCatch
                    (now <- tick w ;;
                     claims <- lift (JwtUtils.verifyRefreshToken env token now) ;;
                     ret (Some claims))
                    (ret None) ;;
       match decoded with
       | None => ret invalidRefreshToken
       | Some _ =>
           storedToken <- refreshToken_findUnique_include_user token ;;
           match storedToken with
           | None => ret refreshTokenExpired
           | Some (row, owner) =>
               now <- tick w ;;
               if RefreshToken.expiresAt row <? now then ret refreshTokenExpired
               else
                 match owner with
                 | None => lift (Throw "Cannot read properties of null")
                 | Some user =>
                     if negb (User.isActive user) then ret accountDeactivated
                     else
                       now' <- tick w ;;
                       newAccessToken <-
                         lift (JwtUtils.generateAccessToken env
                                 (Payload.mk (User.id user) (Some (User.email user)) None)
                                 now') ;;
                       ret (tokenRefreshed newAccessToken)
                 end
           end
       end).

Definition loggedOut (msg : string) : Response :=
  mkResponse 200 (mkApiResponse true msg None None)
    [ClearCookie "accessToken"; ClearCookie "refreshToken"].

Definition logout (req : Request.t) : Db -> Response * Db :=
  handle "Logout error:"
    (let refreshToken := cookieRefreshToken req in
     _ <- (if truthy refreshToken
           then _ <- refreshToken_deleteMany_token (str refreshToken) ;; ret tt
           else ret tt) ;;
     ret (loggedOut "Logout successful")).

Definition logoutAll (req : Request.t) : Db -> Response * Db :=
  handle "Logout all error:"
    match Request.user req with
    | None => ret (failure 401 "User not authenticated" "UNAUTHORIZED")
    | Some user =>
        _ <- refreshToken_deleteMany_userId (AuthUser.userId user) ;;
        ret (loggedOut "Logged out from all devices successfully")
    end.

End Handlers.
End AuthController.

(** ** The duration strings of the specification *)

Fixpoint allDigits (s : string) : bool :=
  match s with
  | EmptyString => true
  | String c s' => (JwtUtils.isDigit c && allDigits s')%bool
  end.

(** [s] is [<integer><unit>]: a non-empty string of decimal digits followed
    by one of the letters s, m, h, d. *)
Definition durationShape (s digits : string) (u : ascii) : Prop :=
  s = (digits +:+ String u EmptyString)
  /\ digits <> EmptyString
  /\ allDigits digits = true
  /\ (u = "s" \/ u = "m" \/ u = "h" \/ u = "d")%char.

(** The seconds in one unit. *)
Definition unitSeconds (u : ascii) : Z :=
  if Ascii.eqb u "s" then 1
  else if Ascii.eqb u "m" then 60
  else if Ascii.eqb u "h" then 3600
  else 86400.

(** The offset in milliseconds that a string of digits and a unit denote. *)
Definition parseIntOffset (digits : string) (u : ascii) : Z :=
  JwtUtils.parseInt digits * unitSeconds u * 1000.

(** ** A fixture: toy libraries, a configuration and a small database *)

Module Fixture.

(** The toy signature: the secret and the claims, in clear. *)
Definition sign (k : string) (c : Claims.t) : string :=
  k +:+ "." +:+ Payload.userId (Claims.payload c)
    +:+ "." +:+ str (Payload.email (Claims.payload c))
    +:+ "." +:+ str (Payload.tokenId (Claims.payload c))
    +:+ "." +:+ pretty (Claims.iat c).

Definition aliceAccessClaims : Claims.t :=
  Claims.mk (Payload.mk "u1" (Some "alice@example.com"%string) None)
    1700000000 (Some 1700000900).

Definition aliceRefreshClaims : Claims.t :=
  Claims.mk (Payload.mk "u1" None (Some "refresh_1699999999000_0.25"%string))
    1699999999 (Some 1700604799).

Definition knownClaims : list Claims.t := [aliceAccessClaims; aliceRefreshClaims].

Definition jwt : Jsonwebtoken := {|
  jws_sign := sign;
  jws_verify := fun k token =>
    List.find (fun c => String.eqb (sign k c) token) knownClaims;
  timespan := fun s =>
    if String.eqb s "15m" then Some 900
    else if String.eqb s "7d" then Some 604800
    else None
|}.

Definition bcrypt : Bcryptjs := {|
  bcrypt_hash := fun password _ salt => salt +:+ "$" +:+ password;
  bcrypt_compare := fun password hash => String.eqb hash ("salt$" +:+ password)
|}.

Definition env : Env :=
  mkEnv (Some "access-secret"%string) (Some "refresh-secret"%string) None None None.

Definition world : World :=
  mkWorld (fun n => 1700000000000 + Z.of_nat n) "u2" "salt" "0.5".

Definition alice : User.t :=
  User.mk "u1" "alice@example.com" "salt$pw123456" (Some "Alice"%string) None true
    1699999999000 1699999999000.

Definition aliceToken : string := sign "refresh-secret" aliceRefreshClaims.

Definition store : Db :=
  mkDb [alice] {[ aliceToken := RefreshToken.mk "u1" 1700604799000 1699999999000 1699999999000 ]}.

Definition cookieRequest (token : string) : Request.t :=
  Request.mk None (Some (Cookies.mk None (Some token))) None None.

Definition bearerRequest (token : string) : Request.t :=
  Request.mk None (Some (Cookies.mk None None)) (Some ("Bearer " +:+ token)) None.

Definition credentials (email password : string) : Request.t :=
  Request.mk (Some (Body.mk (Some email) (Some password) None None))
    (Some (Cookies.mk None None)) None None.

End Fixture.

(** The payload of the access token that [refreshToken] mints for a user. *)
Definition accessPayload (user : User.t) : Payload.t :=
  Payload.mk (User.id user) (Some (User.email user)) None.

(** The view of a stored user that [register] and [login] send. *)
Definition userView (u : User.t) : JsonObject :=
  AuthController.userObject (User.id u) (User.email u) (User.firstName u)
    (User.lastName u) (User.isActive u) (User.createdAt u) (User.updatedAt u).

(** The names of the members of an object. *)
Definition keys (o : JsonObject) : list string := List.map fst o.

Definition publicFields : list string :=
  ["id"; "email"; "firstName"; "lastName"; "isActive"; "createdAt"; "updatedAt"]%string.

(** Running a handler body: the monad and the table operations, unfolded. *)
Ltac run_handler :=
  unfold handle, bind, tryCatch, ret, lift, tick, getDb, putDb,
    refreshToken_findUnique_include_user, refreshToken_deleteMany_token,
    refreshToken_deleteMany_userId, user_findUnique_email;
  simpl.

(** ** controllers/authController.ts, [getProfile] *)

(** [ApiResponse<typeof user>] as [getProfile] sends it: the data is the
    selection of a user row, null names included. *)
Module ProfileResponse.
Record t : Type := mk {
  status : Z;
  success : bool;
  message : string;
  error : option string;
  data : option Selected.t
}.
End ProfileResponse.

Module ProfileController.

Definition failed (st : Z) (msg err : string) : ProfileResponse.t :=
  ProfileResponse.mk st false msg (Some err) None.

(** [prisma.user.findUnique({where: {id}, select})] *)
Definition user_findUnique_id_select (id : string) : M (option Selected.t) :=
  d <- getDb ;;
  ret (match findById id (users d) with
       | Some u => Some (Selected.of_user u)
       | None => None
       end).

Definition getProfile (req : Request.t) (d : Db) : ProfileResponse.t * Db :=
  match
    match Request.user req with
    | None => ret (failed 401 "User not authenticated" "UNAUTHORIZED")
    | Some identity =>
        user <- user_findUnique_id_select (AuthUser.userId identity) ;;
        match user with
        | None => ret (failed 404 "User not found" "USER_NOT_FOUND")
        | Some selected =>
            ret (ProfileResponse.mk 200 true "Profile retrieved successfully" None
                   (Some selected))
        end
    end (mkSt d 0%nat)
  with
  | (Ok r, st) => (r, db st)
  | (Throw _, st) => (failed 500 "Internal server error" "INTERNAL_ERROR", db st)
  end.

End ProfileController.

(** ** middleware/auth.ts *)

Module Middleware.

(** What a middleware does with a request: it calls [next()] on the request,
    whose [user] it may have set, or it sends a response. *)
Inductive Outcome : Type :=
| Next (req : Request.t)
| Reply (r : Response).

(** [req.user = u] *)
Definition setUser (req : Request.t) (u : option AuthUser.t) : Request.t :=
  Request.mk (Request.body req) (Request.cookies req) (Request.authorization req) u.

(** [req.cookies?.accessToken] *)
Definition cookieAccessToken (req : Request.t) : option string :=
  match Request.cookies req with
  | Some c => Cookies.accessToken c
  | None => None
  end.

(** Lines 24-30 and 71-76: the token of the Authorization header, else the
    one of the cookie. *)
Definition presentedAccessToken (req : Request.t) : option string :=
  let token := JwtUtils.extractTokenFromHeader (Request.authorization req) in
  if (negb (truthy token) && truthy (cookieAccessToken req))%bool
  then cookieAccessToken req
  else token.

(** [{userId: decoded.userId, email: decoded.email}] for a payload cast to
    [JwtPayload], whose [email] is a string. *)
Definition identityOf (decoded : Claims.t) : AuthUser.t :=
  AuthUser.mk (Payload.userId (Claims.payload decoded))
    (str (Payload.email (Claims.payload decoded))).

Section WithLibrary.
Context {jwtLib : Jsonwebtoken} (env : Env).

(** [authenticateToken], when the clock of [jwt.verify] reads [now] *)
Definition authenticateToken (now : Z) (req : Request.t) : Outcome :=
  let token := presentedAccessToken req in
  if negb (truthy token)
  then Reply (failure 401 "Access token is required" "UNAUTHORIZED")
  else
    match JwtUtils.verifyAccessToken env (str token) now with
    | Ok decoded => Next (setUser req (Some (identityOf decoded)))
    | Throw _ => Reply (failure 401 "Invalid or expired access token" "UNAUTHORIZED")
    end.

(** [optionalAuth], when the clock of [jwt.verify] reads [now] *)
Definition optionalAuth (now : Z) (req : Request.t) : Outcome :=
  let token := presentedAccessToken req in
  if truthy token
  then
    match JwtUtils.verifyAccessToken env (str token) now with
    | Ok decoded => Next (setUser req (Some (identityOf decoded)))
    | Throw _ => Next (setUser req None)
    end
  else Next req.

End WithLibrary.
End Middleware.

(** ** routes/authRoutes.ts *)

Module AuthRoutes.
Section WithLibrary.
Context {jwtLib : Jsonwebtoken} {bcryptLib : Bcryptjs} (env : Env).

(** [router.post(path, authenticateToken, handler)]: the handler runs on the
    request that the middleware passes on. *)
Definition guarded {R : Type} (reject : Response -> R) (now : Z)
    (handler : Request.t -> Db -> R * Db) (req : Request.t) (d : Db) : R * Db :=
  match Middleware.authenticateToken env now req with
  | Middleware.Next req' => handler req' d
  | Middleware.Reply r => (reject r, d)
  end.

Definition register (w : World) : Request.t -> Db -> Response * Db :=
  AuthController.register env w.

Definition login (w : World) : Request.t -> Db -> Response * Db :=
  AuthController.login env w.

Definition refresh (w : World) : Request.t -> Db -> Response * Db :=
  AuthController.refreshToken env w.

Definition logout (now : Z) : Request.t -> Db -> Response * Db :=
  guarded id now AuthController.logout.

Definition logoutAll (now : Z) : Request.t -> Db -> Response * Db :=
  guarded id now AuthController.logoutAll.

(** The profile route sends the middleware's response or the controller's. *)
Definition profile (now : Z)
    : Request.t -> Db -> (Response + ProfileResponse.t) * Db :=
  guarded inl now
    (fun req d => let '(r, d') := ProfileController.getProfile req d in (inr r, d')).

End WithLibrary.
End AuthRoutes.

(** ** Invariants of the tables *)

(** The [@id] and [@unique] constraints of [User]. *)
Definition uniqueUsers (us : list User.t) : Prop :=
  NoDup (List.map User.id us) /\ NoDup (List.map User.email us).

(** The relation of [RefreshToken.userId] to [User.id]. *)
Definition ownersExist (d : Db) : Prop :=
  forall token row, refreshTokens d !! token = Some row ->
    exists u, findById (RefreshToken.userId row) (users d) = Some u.

(** The refresh token that [issueTokens] mints at its third clock reading,
    and the row it stores at its fifth. *)
Definition refreshPayload (w : World) (userId : string) (dateNow : Z) : Payload.t :=
  Payload.mk userId None (Some ("refresh_" +:+ pretty dateNow +:+ "_" +:+ random w)).

(** What the outer [catch] of a handler sends. *)
Definition internalError : Response :=
  failure 500 "Internal server error" "INTERNAL_ERROR".

(** The row that [register] inserts. *)
Definition registeredRow {bcryptLib : Bcryptjs} (w : World) (body : Body.t)
    (email password : string) : User.t :=
  User.mk (cuid w) email (bcrypt_hash password 12 (salt w))
    (Body.firstName body) (Body.lastName body) true (clock w 0) (clock w 0).

(** What [register] (201) and [login] (200) send with a new session. *)
Definition sessionResponse (env : Env) (st : Z) (msg : string) (u : User.t)
    (accessToken refreshToken : string) : Response :=
  mkResponse st
    (mkApiResponse true msg None (Some (AuthResponse (userView u) accessToken)))
    [AuthController.accessCookie env accessToken;
     AuthController.refreshCookie env refreshToken].

(** The two refusals of [authenticateToken]. *)
Definition accessTokenRequired : Response :=
  failure 401 "Access token is required" "UNAUTHORIZED".

Definition accessTokenInvalid : Response :=
  failure 401 "Invalid or expired access token" "UNAUTHORIZED".

(** ** [login] on a body whose fields are not typed

    [express.json()] hands over whatever JSON the client sent: the fields
    that [LoginRequest] declares as strings may hold any value.  The
    handler observes of a value its truthiness, and the two calls that
    take the fields check that they are strings: [prisma.user.findUnique]
    refuses an [email] that is not one, and [bcrypt.compare] a [password]
    that is not one; both refusals are exceptions. *)

(** A value of a JSON body; the numbers are the integral ones. *)
Inductive JsValue : Type :=
| VString (s : string)
| VNumber (n : Z)
| VBool (b : bool)
| VNull
| VObject.

(** [!!v] for a field, [None] when the field is absent *)
Definition truthyValue (v : option JsValue) : bool :=
  match v with
  | Some (VString s) => truthy (Some s)
  | Some (VNumber n) => negb (n =? 0)
  | Some (VBool b) => b
  | Some VObject => true
  | Some VNull => false
  | None => false
  end.

Module RawBody.
Record t : Type := mk {
  email : option JsValue;
  password : option JsValue
}.

(** The body whose fields are the strings of a typed one. *)
Definition of_body (b : Body.t) : t :=
  mk (option_map VString (Body.email b)) (option_map VString (Body.password b)).
End RawBody.

Module AuthControllerUntyped.
Section Handlers.
Context {jwtLib : Jsonwebtoken} {bcryptLib : Bcryptjs} (env : Env) (w : World).

(** [prisma.user.findUnique({where: {email}})] for a truthy [email] *)
Definition user_findUnique_email (email : option JsValue) : M (option User.t) :=
  match email with
  | Some (VString e) => d <- getDb ;; ret (findByEmail e (users d))
  | _ => lift (Throw "Argument email: Invalid value provided. Expected String")
  end.

(** [bcrypt.compare(password, hash)] for a truthy [password] *)
Definition compare (password : option JsValue) (hash : string) : M bool :=
  match password with
  | Some (VString p) => ret (bcrypt_compare p hash)
  | _ => lift (Throw "Illegal arguments")
  end.

(** [AuthController.login], lines 160-300, on [req.body] as it arrives. *)
Definition login (body : option RawBody.t) : Db -> Response * Db :=
  handle "Login error:"
    match body with
    | None => ret AuthController.invalidBody
    | Some body =>
        let email := RawBody.email body in
        let password := RawBody.password body in
        if (negb (truthyValue email) || negb (truthyValue password))%bool
        then ret AuthController.validationError
        else
          found <- user_findUnique_email email ;;
          match found with
          | None => ret AuthController.invalidCredentials
          | Some user =>
              if negb (User.isActive user) then ret AuthController.accountDeactivated
              else
                isPasswordValid <- compare password (User.password user) ;;
                if negb isPasswordValid then ret AuthController.invalidCredentials
                else
                  tokens <- AuthController.issueTokens env w
                              (User.id user) (User.email user) ;;
                  let '(accessToken, refreshToken) := tokens in
                  let userResponse :=
                    AuthController.userObject (User.id user) (User.email user)
                      (User.firstName user) (User.lastName user) (User.isActive user)
                      (User.createdAt user) (User.updatedAt user) in
                  ret (mkResponse 200
                         (mkApiResponse true "Login successful" None
                            (Some (AuthResponse userResponse accessToken)))
                         [AuthController.accessCookie env accessToken;
                          AuthController.refreshCookie env refreshToken])
          end
    end.

End Handlers.
End AuthControllerUntyped.

(** ** A second fixture: requests with an access token *)

Module Scenario.

Definition accessToken : string := Fixture.sign "access-secret" Fixture.aliceAccessClaims.

Definition aliceIdentity : AuthUser.t := AuthUser.mk "u1" "alice@example.com".

(** An access token in the Authorization header, a refresh token in the
    cookies. *)
Definition authorized (refresh : option string) : Request.t :=
  Request.mk None (Some (Cookies.mk None refresh)) (Some ("Bearer " +:+ accessToken)) None.

(** The same tokens, both in the cookies. *)
Definition withCookies (access refresh : option string) : Request.t :=
  Request.mk None (Some (Cookies.mk access refresh)) None None.

Definition identified (u : AuthUser.t) : Request.t :=
  Request.mk None None None (Some u).

Definition inactiveBob : User.t :=
  User.mk "u3" "bob@example.com" "salt$hunter22" None None false
    1699999990000 1699999990000.

Definition storeWithBob : Db :=
  mkDb [Fixture.alice; inactiveBob] (refreshTokens Fixture.store).

(** A configuration without the access secret. *)
Definition envNoAccessSecret : Env :=
  mkEnv None (Some "refresh-secret"%string) None None None.

(** The claims of the refresh token that [login] mints for alice in
    [Fixture.world], and a toy library that knows them too. *)
Definition issuedRefreshClaims : Claims.t :=
  Claims.mk (Payload.mk "u1" None (Some "refresh_1700000000001_0.5"%string))
    1700000000 (Some 1700604800).

Definition jwt : Jsonwebtoken := {|
  jws_sign := Fixture.sign;
  jws_verify := fun k token =>
    List.find (fun c => String.eqb (Fixture.sign k c) token)
      (issuedRefreshClaims :: Fixture.knownClaims);
  timespan := fun s =>
    if String.eqb s "15m" then Some 900
    else if String.eqb s "7d" then Some 604800
    else None
|}.

Definition issuedRefreshToken : string :=
  Fixture.sign "refresh-secret" issuedRefreshClaims.

(** A later request: one minute after [Fixture.world]. *)
Definition later : World :=
  mkWorld (fun n => 1700000060000 + Z.of_nat n) "u9" "salt" "0.75".

End Scenario.

(** * Properties *)

(** ** Duration strings and [getTokenExpiration] *)

Section Durations.
Import JwtUtils.

Lemma isUnit_spec (u : ascii) :
  isUnit u = true <-> (u = "s" \/ u = "m" \/ u = "h" \/ u = "d")%char.
Proof.
  unfold isUnit. rewrite !orb_true_iff, !Ascii.eqb_eq. tauto.
Qed.

Lemma isUnit_not_digit (u : ascii) : isUnit u = true -> isDigit u = false.
Proof.
  rewrite isUnit_spec. intros [-> | [-> | [-> | ->]]]; reflexivity.
Qed.

Lemma spanDigits_app (ds rest : string) :
  allDigits ds = true ->
  match rest with
  | EmptyString => True
  | String c _ => isDigit c = false
  end ->
  spanDigits (ds +:+ rest) = (ds, rest).
Proof.
  intros Hds Hrest. induction ds as [| c ds IH]; simpl in *.
  - destruct rest as [| c r]; simpl; [reflexivity | now rewrite Hrest].
  - apply andb_true_iff in Hds as [Hc Hds]. rewrite Hc, (IH Hds). reflexivity.
Qed.

Lemma spanDigits_inv (s ds rest : string) :
  spanDigits s = (ds, rest) -> s = (ds +:+ rest) /\ allDigits ds = true.
Proof.
  revert ds rest. induction s as [| c s IH]; simpl; intros ds rest Heq.
  - inversion Heq; subst. split; reflexivity.
  - destruct (isDigit c) eqn:Hc.
    + destruct (spanDigits s) as [ds' rest'] eqn:Hs. inversion Heq; subst.
      destruct (IH ds' rest eq_refl) as [-> Hall]. simpl. rewrite Hc, Hall.
      split; reflexivity.
    + inversion Heq; subst. split; reflexivity.
Qed.

(** The pattern matches exactly the strings of the shape, and captures the
    digits and the unit letter. *)
Lemma matchDuration_shape (s ds : string) (u : ascii) :
  matchDuration s = Some (ds, u) <-> durationShape s ds u.
Proof.
  unfold matchDuration, durationShape. split.
  - destruct (spanDigits s) as [ds' rest] eqn:Hs.
    apply spanDigits_inv in Hs as [-> Hall].
    destruct ds' as [| d ds']; [discriminate |].
    destruct rest as [| u' [| ? ?]]; try discriminate.
    destruct (isUnit u') eqn:Hu; [| discriminate].
    intros [= <- <-]. apply isUnit_spec in Hu. repeat split; try assumption.
    discriminate.
  - intros (-> & Hne & Hall & Hu). apply isUnit_spec in Hu.
    rewrite spanDigits_app; [| assumption | now apply isUnit_not_digit].
    destruct ds as [| d ds]; [congruence |]. now rewrite Hu.
Qed.

Lemma matchDuration_None (s : string) :
  matchDuration s = None <-> (forall ds u, ~ durationShape s ds u).
Proof.
  split.
  - intros Hnone ds u Hshape. apply matchDuration_shape in Hshape. congruence.
  - intros Hno. destruct (matchDuration s) as [[ds u] |] eqn:Hm; [| reflexivity].
    apply matchDuration_shape in Hm. now apply Hno in Hm.
Qed.

Lemma newDate_valid (t : Z) : Z.abs t <= maxTimeValue -> newDate t = ValidDate t.
Proof. intros Ht. unfold newDate. now apply Z.leb_le in Ht as ->. Qed.

Lemma newDate_invalid (t : Z) : maxTimeValue < Z.abs t -> newDate t = InvalidDate.
Proof. intros Ht. unfold newDate. now apply Z.leb_gt in Ht as ->. Qed.

(** On a string of the shape the result is the Date made from the current
    time plus the offset. *)
Lemma getTokenExpiration_shape (now : Z) (s ds : string) (u : ascii) :
  durationShape s ds u ->
  getTokenExpiration now s = Ok (newDate (now + parseInt ds * unitSeconds u * 1000)).
Proof.
  intros Hshape. pose proof Hshape as (_ & _ & _ & Hu).
  apply matchDuration_shape in Hshape. unfold getTokenExpiration. rewrite Hshape.
  unfold unitSeconds.
  destruct Hu as [-> | [-> | [-> | ->]]]; simpl; do 2 f_equal; lia.
Qed.

End Durations.

(** C4 (as amended).  Evaluated at time [now], [getTokenExpiration] accepts
    exactly the strings [<integer><unit>] with unit s, m, h or d.  On such a
    string it returns the Date of [now] plus the offset (value, value*60,
    value*3600 or value*86400 seconds): that instant when it lies within
    8.64e15 ms of the epoch, the Invalid Date beyond.  On every other string
    it throws "Invalid expiration format".  So ["15m"] gives [now] + 900 s and
    ["7d"] gives [now] + 604800 s, and ["bogus"] and ["15"] fail. *)
Theorem getTokenExpiration_duration (now : Z) :
  (forall s ds u, durationShape s ds u ->
     let t := now + parseIntOffset ds u in
     (Z.abs t <= maxTimeValue -> JwtUtils.getTokenExpiration now s = Ok (ValidDate t))
     /\ (maxTimeValue < Z.abs t -> JwtUtils.getTokenExpiration now s = Ok InvalidDate))
  /\ (forall s, (forall ds u, ~ durationShape s ds u) ->
        JwtUtils.getTokenExpiration now s = Throw "Invalid expiration format")
  /\ (Z.abs (now + 900 * 1000) <= maxTimeValue ->
        JwtUtils.getTokenExpiration now "15m" = Ok (ValidDate (now + 900 * 1000)))
  /\ (Z.abs (now + 604800 * 1000) <= maxTimeValue ->
        JwtUtils.getTokenExpiration now "7d" = Ok (ValidDate (now + 604800 * 1000)))
  /\ JwtUtils.getTokenExpiration now "bogus" = Throw "Invalid expiration format"
  /\ JwtUtils.getTokenExpiration now "15" = Throw "Invalid expiration format".
Proof.
  split; [| split; [| split; [| split; [| split; reflexivity]]]].
  - intros s ds u Hshape t. subst t. unfold parseIntOffset.
    rewrite (getTokenExpiration_shape now s ds u Hshape).
    split; intros Ht; f_equal; [now apply newDate_valid | now apply newDate_invalid].
  - intros s Hno. apply matchDuration_None in Hno.
    unfold JwtUtils.getTokenExpiration. now rewrite Hno.
  - intros Ht. rewrite (getTokenExpiration_shape now "15m" "15" "m").
    + f_equal. now apply newDate_valid.
    + repeat split; auto; discriminate.
  - intros Ht. rewrite (getTokenExpiration_shape now "7d" "7" "d").
    + f_equal. now apply newDate_valid.
    + repeat split; auto; discriminate.
Qed.

Lemma getTokenExpiration_duration_witness :
  JwtUtils.getTokenExpiration 1700000000000 "90s"
  = Ok (ValidDate (1700000000000 + parseIntOffset "90" "s")).
Proof.
  apply (proj1 (proj1 (getTokenExpiration_duration 1700000000000) "90s"%string "90"%string "s"%char
                  ltac:(split; [reflexivity | split; [discriminate | split; [reflexivity |]]];
                        left; reflexivity))).
  vm_compute. discriminate.
Defined.

(** C4, the claim as stated fails: one hundred million days from a current
    date is of the shape, and the result is the Invalid Date, not that
    instant. *)
Lemma getTokenExpiration_out_of_range :
  durationShape "100000000d" "100000000" "d"
  /\ JwtUtils.getTokenExpiration 1700000000000 "100000000d" = Ok InvalidDate
  /\ JwtUtils.getTokenExpiration 1700000000000 "100000000d"
     <> Ok (ValidDate (1700000000000 + 100000000 * 86400 * 1000)).
Proof.
  split; [| split].
  - split; [reflexivity | split; [discriminate | split; [reflexivity |]]].
    right; right; right; reflexivity.
  - reflexivity.
  - discriminate.
Qed.

(** ** [extractTokenFromHeader] *)

Lemma startsWith_inv (s p : string) :
  startsWith s p = true -> s = (p +:+ substring_from (String.length p) s).
Proof.
  revert s. induction p as [| c p IH]; intros s Hs.
  - reflexivity.
  - destruct s as [| d s]; simpl in *; [discriminate |].
    destruct (Ascii.eqb c d) eqn:Hcd; [| discriminate].
    apply Ascii.eqb_eq in Hcd as ->.
    change (String d s = String d (p +:+ substring_from (String.length p) s)).
    f_equal. now apply IH.
Qed.

(** C5.  [extractTokenFromHeader] returns what follows the prefix "Bearer "
    of a header that starts with it, and null, without throwing, for a
    header that does not start with it and for an absent header; so
    "Bearer abc" gives "abc", and "abc" and [undefined] give null. *)
Theorem extractTokenFromHeader_bearer :
  (forall token : string,
      JwtUtils.extractTokenFromHeader (Some ("Bearer " +:+ token)) = Some token)
  /\ (forall header : string,
        (forall token, header <> ("Bearer " +:+ token)) ->
        JwtUtils.extractTokenFromHeader (Some header) = None)
  /\ JwtUtils.extractTokenFromHeader None = None
  /\ JwtUtils.extractTokenFromHeader (Some "Bearer abc"%string) = Some "abc"%string
  /\ JwtUtils.extractTokenFromHeader (Some "abc"%string) = None.
Proof.
  split; [| split; [| repeat split]].
  - intros token. reflexivity.
  - intros header Hno. unfold JwtUtils.extractTokenFromHeader.
    destruct (startsWith header "Bearer ") eqn:Hp.
    + apply startsWith_inv in Hp. now apply Hno in Hp.
    + now rewrite orb_true_r.
Qed.

Lemma extractTokenFromHeader_bearer_witness :
  JwtUtils.extractTokenFromHeader (Some "Basic abc"%string) = None.
Proof.
  apply (proj1 (proj2 extractTokenFromHeader_bearer) "Basic abc"%string).
  intros token. discriminate.
Defined.

(** ** Refreshing and revoking *)

Section Refresh.
Context {jwtLib : Jsonwebtoken} (env : Env).
Import AuthController.

(** What [refreshToken] sends for a request that carries a token: the
    handler, run. *)
Lemma refreshToken_run (w : World) (req : Request.t) (d : Db) (token : string) :
  presentedRefreshToken req = Some token ->
  truthy (Some token) = true ->
  refreshToken env w req d =
  (match JwtUtils.verifyRefreshToken env token (clock w 0) with
   | Throw _ => invalidRefreshToken
   | Ok _ =>
       match refreshTokens d !! token with
       | None => refreshTokenExpired
       | Some row =>
           if RefreshToken.expiresAt row <? clock w 1 then refreshTokenExpired
           else
             match findById (RefreshToken.userId row) (users d) with
             | None => failure 500 "Internal server error" "INTERNAL_ERROR"
             | Some user =>
                 if negb (User.isActive user) then accountDeactivated
                 else
                   match JwtUtils.generateAccessToken env (accessPayload user)
                           (clock w 2) with
                   | Ok newAccessToken => tokenRefreshed env newAccessToken
                   | Throw _ => failure 500 "Internal server error" "INTERNAL_ERROR"
                   end
             end
       end
   end, d).
Proof.
  intros Hp Ht. unfold refreshToken. rewrite Hp, Ht. run_handler.
  destruct (JwtUtils.verifyRefreshToken env token (clock w 0)); simpl; [| reflexivity].
  destruct (refreshTokens d !! token) as [row |]; simpl; [| reflexivity].
  destruct (RefreshToken.expiresAt row <? clock w 1); simpl; [reflexivity |].
  destruct (findById (RefreshToken.userId row) (users d)) as [user |]; simpl;
    [| reflexivity].
  destruct (User.isActive user); simpl; [| reflexivity].
  unfold accessPayload.
  destruct (JwtUtils.generateAccessToken env _ (clock w 2)); reflexivity.
Qed.

Lemma refreshToken_absent (w : World) (req : Request.t) (d : Db) :
  truthy (presentedRefreshToken req) = false ->
  refreshToken env w req d = (refreshTokenRequired, d).
Proof.
  intros Ht. unfold refreshToken. rewrite Ht. reflexivity.
Qed.

(** Whether minting succeeds depends on the configuration only, not on the
    payload or the time. *)
Lemma generateAccessToken_total (p p' : Payload.t) (now now' : Z) (tok : string) :
  JwtUtils.generateAccessToken env p now = Ok tok ->
  exists tok', JwtUtils.generateAccessToken env p' now' = Ok tok'.
Proof.
  unfold JwtUtils.generateAccessToken, Jwt.sign.
  destruct (JwtUtils.accessSecret env) as [[| c k] |]; try discriminate.
  destruct (timespan (JwtUtils.accessExpiresIn env)); try discriminate.
  intros _. eexists. reflexivity.
Qed.

(** A successful refresh passed every check. *)
Lemma refreshToken_success_inv (w : World) (req : Request.t) (d : Db) (token : string) :
  presentedRefreshToken req = Some token ->
  truthy (Some token) = true ->
  success (json (fst (refreshToken env w req d))) = true ->
  exists claims row user newAccessToken,
    JwtUtils.verifyRefreshToken env token (clock w 0) = Ok claims
    /\ refreshTokens d !! token = Some row
    /\ clock w 1 <= RefreshToken.expiresAt row
    /\ findById (RefreshToken.userId row) (users d) = Some user
    /\ User.isActive user = true
    /\ JwtUtils.generateAccessToken env (accessPayload user) (clock w 2)
       = Ok newAccessToken
    /\ fst (refreshToken env w req d) = tokenRefreshed env newAccessToken.
Proof.
  intros Hp Ht. rewrite (refreshToken_run w req d token Hp Ht). simpl.
  destruct (JwtUtils.verifyRefreshToken env token (clock w 0)) as [claims | msg];
    [| discriminate].
  destruct (refreshTokens d !! token) as [row |]; [| discriminate].
  destruct (RefreshToken.expiresAt row <? clock w 1) eqn:Hexp; [discriminate |].
  destruct (findById (RefreshToken.userId row) (users d)) as [user |] eqn:Huser;
    [| discriminate].
  destruct (User.isActive user) eqn:Hact; [| discriminate]. simpl.
  destruct (JwtUtils.generateAccessToken env (accessPayload user) (clock w 2))
    as [tok | msg] eqn:Hgen; [| discriminate].
  intros _. exists claims, row, user, tok. apply Z.ltb_ge in Hexp.
  repeat split; assumption || reflexivity.
Qed.

(** C1.  For a refresh request that carries a token, the checks come in this
    order: a token that fails verification with the refresh secret gives
    INVALID_REFRESH_TOKEN; then a token with no stored record of exactly that
    value, or whose stored expiry is in the past, gives
    REFRESH_TOKEN_EXPIRED; then an owner whose active flag is off gives
    ACCOUNT_DEACTIVATED.  A new access token is sent only when all three
    checks pass: a valid signature alone does not suffice. *)
Theorem refreshToken_checks_in_order (w : World) (req : Request.t) (d : Db)
    (token : string) :
  presentedRefreshToken req = Some token ->
  truthy (Some token) = true ->
  let verified := JwtUtils.verifyRefreshToken env token (clock w 0) in
  let resp := fst (refreshToken env w req d) in
  (forall msg, verified = Throw msg -> resp = invalidRefreshToken)
  /\ (forall claims, verified = Ok claims ->
        refreshTokens d !! token = None -> resp = refreshTokenExpired)
  /\ (forall claims row, verified = Ok claims ->
        refreshTokens d !! token = Some row ->
        RefreshToken.expiresAt row < clock w 1 -> resp = refreshTokenExpired)
  /\ (forall claims row user, verified = Ok claims ->
        refreshTokens d !! token = Some row ->
        clock w 1 <= RefreshToken.expiresAt row ->
        findById (RefreshToken.userId row) (users d) = Some user ->
        User.isActive user = false -> resp = accountDeactivated)
  /\ (success (json resp) = true ->
        exists claims row user newAccessToken,
          verified = Ok claims
          /\ refreshTokens d !! token = Some row
          /\ clock w 1 <= RefreshToken.expiresAt row
          /\ findById (RefreshToken.userId row) (users d) = Some user
          /\ User.isActive user = true
          /\ JwtUtils.generateAccessToken env (accessPayload user) (clock w 2)
             = Ok newAccessToken
          /\ resp = tokenRefreshed env newAccessToken).
Proof.
  intros Hp Ht verified resp. subst verified resp.
  split; [| split; [| split; [| split]]].
  - intros msg Hver. rewrite (refreshToken_run w req d token Hp Ht), Hver.
    reflexivity.
  - intros claims Hver Hrow. rewrite (refreshToken_run w req d token Hp Ht), Hver, Hrow.
    reflexivity.
  - intros claims row Hver Hrow Hlt. apply Z.ltb_lt in Hlt.
    rewrite (refreshToken_run w req d token Hp Ht), Hver, Hrow, Hlt. reflexivity.
  - intros claims row user Hver Hrow Hle Huser Hact. apply Z.ltb_ge in Hle.
    rewrite (refreshToken_run w req d token Hp Ht), Hver, Hrow, Hle, Huser, Hact.
    reflexivity.
  - now apply refreshToken_success_inv.
Qed.

(** C3.  [refreshToken] never writes to the tables.  When it succeeds it
    sends a new access token and nothing else (one cookie, [accessToken],
    and the same token in the body), the stored record of the presented
    refresh token is as it was, and any later request with the same
    refresh token succeeds again as long as the token still verifies and
    its stored expiry has not passed. *)
Theorem refreshToken_does_not_rotate (w : World) (req : Request.t) (d : Db) :
  snd (refreshToken env w req d) = d
  /\ (success (json (fst (refreshToken env w req d))) = true ->
      exists token newAccessToken,
        presentedRefreshToken req = Some token
        /\ fst (refreshToken env w req d) = tokenRefreshed env newAccessToken
        /\ refreshTokens (snd (refreshToken env w req d)) !! token
           = refreshTokens d !! token
        /\ forall (w' : World) (req' : Request.t) (claims : Claims.t) (row : RefreshToken.t),
            presentedRefreshToken req' = Some token ->
            JwtUtils.verifyRefreshToken env token (clock w' 0) = Ok claims ->
            refreshTokens d !! token = Some row ->
            clock w' 1 <= RefreshToken.expiresAt row ->
            success (json (fst (refreshToken env w' req' (snd (refreshToken env w req d)))))
            = true).
Proof.
  destruct (truthy (presentedRefreshToken req)) eqn:Ht.
  - destruct (presentedRefreshToken req) as [token |] eqn:Hp; [| discriminate].
    pose proof (refreshToken_success_inv w req d token Hp Ht) as Hsucc.
    rewrite (refreshToken_run w req d token Hp Ht) in *. simpl in *.
    split; [reflexivity |]. intros Hok.
    destruct (Hsucc Hok)
      as (claims & row & user & tok & _ & Hrow & _ & Huser & Hact & Hgen & Hresp).
    exists token, tok. split; [reflexivity |]. split; [assumption |].
    split; [reflexivity |].
    intros w' req' claims' row' Hp' Hver' Hrow' Hexp'.
    rewrite (refreshToken_run w' req' d token Hp' Ht). simpl.
    rewrite Hver', Hrow'. apply Z.ltb_ge in Hexp'. rewrite Hexp'.
    assert (row' = row) as -> by congruence. rewrite Huser, Hact. simpl.
    destruct (generateAccessToken_total _ (accessPayload user) _ (clock w' 2) _ Hgen)
      as [tok' ->].
    reflexivity.
  - rewrite (refreshToken_absent w req d Ht). simpl. split; [reflexivity | discriminate].
Qed.

(** C2.  After [logoutAll] for an authenticated user no stored refresh token
    is owned by that user, the records of other users and the user table are
    as they were, and a refresh with any token that had a record owned by
    that user gives REFRESH_TOKEN_EXPIRED although the token still passes
    verification. *)
Theorem logoutAll_revokes_sessions (req : Request.t) (d : Db) (user : AuthUser.t) :
  Request.user req = Some user ->
  let d' := snd (logoutAll req d) in
  fst (logoutAll req d) = loggedOut "Logged out from all devices successfully"
  /\ users d' = users d
  /\ (forall token row, refreshTokens d' !! token = Some row ->
        RefreshToken.userId row <> AuthUser.userId user)
  /\ (forall token row, refreshTokens d !! token = Some row ->
        RefreshToken.userId row <> AuthUser.userId user ->
        refreshTokens d' !! token = Some row)
  /\ (forall token row, refreshTokens d !! token = Some row ->
        RefreshToken.userId row = AuthUser.userId user ->
        refreshTokens d' !! token = None
        /\ forall (w : World) (req' : Request.t) (claims : Claims.t),
            presentedRefreshToken req' = Some token ->
            truthy (Some token) = true ->
            JwtUtils.verifyRefreshToken env token (clock w 0) = Ok claims ->
            fst (refreshToken env w req' d') = refreshTokenExpired).
Proof.
  intros Huser d'. subst d'. unfold logoutAll. rewrite Huser. run_handler.
  repeat split.
  - intros token row Hrow. now apply map_lookup_filter_Some in Hrow as [_ Hne].
  - intros token row Hrow Hne. now apply map_lookup_filter_Some.
  - apply map_lookup_filter_None. right. intros row' Hrow'. simpl.
    assert (row' = row) as -> by congruence. auto.
  - intros w req' claims Hp Ht Hver.
    rewrite (refreshToken_run w req' _ token Hp Ht). simpl. rewrite Hver.
    replace (filter _ (refreshTokens d) !! token) with (@None RefreshToken.t);
      [reflexivity |].
    symmetry. apply map_lookup_filter_None. right. intros row' Hrow'. simpl.
    assert (row' = row) as -> by congruence. auto.
Qed.


End Refresh.

(** ** Registration and login *)

Section Sessions.
Context {jwtLib : Jsonwebtoken} {bcryptLib : Bcryptjs} (env : Env).
Import AuthController.

Lemma truthy_str (v : option string) : truthy v = true -> v = Some (str v).
Proof. destruct v as [[| c s] |]; simpl; congruence. Qed.

(** [refreshToken_create] and [issueTokens] leave the user table alone. *)
Lemma refreshToken_create_users (w : World) (token userId : string) (e : JsDate)
    (st st' : St) (r : result unit) :
  refreshToken_create w token userId e st = (r, st') ->
  users (db st') = users (db st).
Proof.
  unfold refreshToken_create. run_handler.
  destruct e as [t |]; simpl; [| now intros [= <- <-]].
  destruct (refreshTokens (db st) !! token);
    destruct (findById userId (users (db st))); simpl; now intros [= <- <-].
Qed.

Lemma issueTokens_users (w : World) (userId email : string) (st st' : St)
    (r : result (string * string)) :
  issueTokens env w userId email st = (r, st') ->
  users (db st') = users (db st).
Proof.
  unfold issueTokens, bind at 1 2 3 4 5 6 7, lift, tick, ret. simpl.
  destruct (JwtUtils.generateAccessToken env _ _); simpl; [| now intros [= <- <-]].
  destruct (JwtUtils.generateRefreshToken env _ _); simpl; [| now intros [= <- <-]].
  destruct (JwtUtils.getTokenExpiration _ _); simpl; [| now intros [= <- <-]].
  unfold bind.
  destruct (refreshToken_create w _ _ _ _) as [[[] | msg] st''] eqn:Hcreate;
    apply refreshToken_create_users in Hcreate; simpl in Hcreate;
    now intros [= <- <-].
Qed.

(** On a request whose fields are typed as [LoginRequest] declares them,
    what [login] sends when no user has the supplied email is what it sends
    when a user has it, is active, and [bcrypt.compare] finds that the
    password does not match. *)
Theorem login_failure_indistinguishable (w1 w2 : World) (req : Request.t)
    (d1 d2 : Db) :
  (forall body email, Request.body req = Some body ->
     Body.email body = Some email -> findByEmail email (users d1) = None) ->
  (forall body email password, Request.body req = Some body ->
     Body.email body = Some email -> Body.password body = Some password ->
     exists user, findByEmail email (users d2) = Some user
                  /\ User.isActive user = true
                  /\ bcrypt_compare password (User.password user) = false) ->
  fst (login env w1 req d1) = fst (login env w2 req d2)
  /\ (forall body, Request.body req = Some body ->
        truthy (Body.email body) = true -> truthy (Body.password body) = true ->
        fst (login env w1 req d1) = invalidCredentials).
Proof.
  intros Hnone Hwrong. unfold login.
  destruct (Request.body req) as [body |]; [| split; [reflexivity | discriminate]].
  destruct (truthy (Body.email body)) eqn:He; simpl;
    [| split; [reflexivity | intros b [= <-] ?; congruence]].
  destruct (truthy (Body.password body)) eqn:Hpw; simpl;
    [| split; [reflexivity | intros b [= <-] _ ?; congruence]].
  pose proof (truthy_str _ He) as Hemail. pose proof (truthy_str _ Hpw) as Hpassword.
  specialize (Hnone body _ eq_refl Hemail).
  destruct (Hwrong body _ _ eq_refl Hemail Hpassword) as (user & Hfound & Hact & Hcmp).
  run_handler. rewrite Hnone, Hfound, Hact. simpl. rewrite Hcmp. simpl.
  split; [reflexivity | intros; reflexivity].
Qed.

(** C8 (as amended).  For every register request whose email already has a
    user record, registration fails and the tables are as they were: no
    user row and no refresh-token record is added, no token is minted and
    no cookie is set.  The failure is USER_EXISTS (409) when the request
    carries a non-empty email and password, and VALIDATION_ERROR (400) when
    one of them is missing or empty. *)
Theorem register_duplicate_email (w : World) (req : Request.t) (d : Db)
    (body : Body.t) (email : string) (existing : User.t) :
  Request.body req = Some body ->
  Body.email body = Some email ->
  findByEmail email (users d) = Some existing ->
  snd (register env w req d) = d
  /\ cookieOps (fst (register env w req d)) = []
  /\ data (json (fst (register env w req d))) = None
  /\ (truthy (Some email) = true -> truthy (Body.password body) = true ->
      fst (register env w req d)
      = failure 409 "User with this email already exists" "USER_EXISTS")
  /\ (truthy (Some email) && truthy (Body.password body) = false ->
      fst (register env w req d) = validationError).
Proof.
  intros Hbody Hemail Hfound. unfold register. rewrite Hbody, Hemail.
  destruct (truthy (Some email)) eqn:He; simpl;
    [| repeat split; intros; reflexivity || discriminate].
  destruct (truthy (Body.password body)) eqn:Hpw; simpl;
    [| repeat split; intros; reflexivity || discriminate].
  run_handler. rewrite Hfound. simpl. repeat split; intros; reflexivity || discriminate.
Qed.

(** The members of a user view are public fields, and never the password. *)
Lemma userView_keys (u : User.t) :
  ~ In "password"%string (keys (userView u)) /\ incl (keys (userView u)) publicFields.
Proof.
  unfold userView, userObject, keys, publicFields, incl.
  destruct (User.firstName u) as [[| c1 s1] |], (User.lastName u) as [[| c2 s2] |];
    simpl; split; try (intros x Hx); intuition (subst; auto 10; discriminate).
Qed.

Lemma userView_withPassword (hash : string) (u : User.t) :
  userView (User.withPassword hash u) = userView u.
Proof. reflexivity. Qed.

(** A successful [register] sends the view of the row it has inserted. *)
Lemma register_success (w : World) (req : Request.t) (d : Db) :
  success (json (fst (register env w req d))) = true ->
  exists user accessToken,
    data (json (fst (register env w req d)))
    = Some (AuthResponse (userView user) accessToken)
    /\ users (snd (register env w req d)) = users d ++ [user].
Proof.
  unfold register.
  destruct (Request.body req) as [body |]; [| discriminate].
  destruct (negb (truthy (Body.email body)) || negb (truthy (Body.password body)))%bool;
    [discriminate |].
  unfold user_findUnique_email, user_create. run_handler.
  destruct (findByEmail (str (Body.email body)) (users d)) eqn:Hnone; [discriminate |].
  simpl. rewrite Hnone.
  destruct (findById (cuid w) (users d)); [discriminate |]. simpl.
  match goal with
  | |- context [issueTokens env w ?i ?e ?st] =>
      destruct (issueTokens env w i e st) as [[[accessToken refreshToken] | msg] st']
        eqn:Hissue
  end; [| discriminate].
  apply issueTokens_users in Hissue. simpl in *. intros _.
  match type of Hissue with
  | _ = _ ++ [?u] => exists u, accessToken
  end.
  split; [reflexivity | exact Hissue].
Qed.

(** A successful [login] sends the view of the row it has found. *)
Lemma login_success (w : World) (req : Request.t) (d : Db) :
  success (json (fst (login env w req d))) = true ->
  exists user accessToken,
    data (json (fst (login env w req d)))
    = Some (AuthResponse (userView user) accessToken)
    /\ In user (users d)
    /\ users (snd (login env w req d)) = users d.
Proof.
  unfold login.
  destruct (Request.body req) as [body |]; [| discriminate].
  destruct (negb (truthy (Body.email body)) || negb (truthy (Body.password body)))%bool;
    [discriminate |].
  run_handler.
  destruct (findByEmail (str (Body.email body)) (users d)) as [user |] eqn:Hfound;
    [| discriminate].
  destruct (User.isActive user) eqn:Hact; [| discriminate]. simpl.
  destruct (bcrypt_compare _ _); [| discriminate]. simpl.
  match goal with
  | |- context [issueTokens env w ?i ?e ?st] =>
      destruct (issueTokens env w i e st) as [[[accessToken refreshToken] | msg] st']
        eqn:Hissue
  end; [| discriminate].
  apply issueTokens_users in Hissue. simpl in *. intros _.
  exists user, accessToken. split; [unfold userView; now rewrite Hact |].
  split; [| exact Hissue].
  apply find_some in Hfound. tauto.
Qed.

(** C9.  Every successful [register] and every successful [login] sends the
    view of a stored user: its members are among id, email, firstName,
    lastName, isActive, createdAt and updatedAt, none is named password, and
    the view is the same whatever the password hash of the row is. *)
Theorem session_user_view_hides_password (w : World) (req : Request.t) (d : Db)
    (resp : Response) (d' : Db) :
  register env w req d = (resp, d') \/ login env w req d = (resp, d') ->
  success (json resp) = true ->
  exists user accessToken,
    data (json resp) = Some (AuthResponse (userView user) accessToken)
    /\ In user (users d')
    /\ ~ In "password"%string (keys (userView user))
    /\ incl (keys (userView user)) publicFields
    /\ forall hash, userView (User.withPassword hash user) = userView user.
Proof.
  intros [Hrun | Hrun] Hok.
  - pose proof (register_success w req d) as Hsucc. rewrite Hrun in Hsucc.
    destruct (Hsucc Hok) as (user & accessToken & Hdata & Husers).
    exists user, accessToken. simpl in *. rewrite Husers.
    destruct (userView_keys user) as [Hno Hincl].
    repeat split; auto using userView_withPassword.
    apply in_or_app. right. now left.
  - pose proof (login_success w req d) as Hsucc. rewrite Hrun in Hsucc.
    destruct (Hsucc Hok) as (user & accessToken & Hdata & Hin & Husers).
    exists user, accessToken. simpl in *. rewrite Husers.
    destruct (userView_keys user) as [Hno Hincl].
    repeat split; auto using userView_withPassword.
Qed.

End Sessions.

(** ** Minting and verifying an access token *)

Section Tokens.
Context {jwtLib : Jsonwebtoken} (env : Env).

(** C6 (as amended).  For every payload [{userId, email}]: when the access
    secret is set and the configured duration is a time span, and the
    signature check of the library accepts the token that the library has
    just signed with the same secret, verifying a minted access token before
    the second of its [exp] claim succeeds and returns the same [userId] and
    [email].  The [exp] claim is the minting time in whole seconds, rounded
    down, plus the duration. *)
Theorem access_token_roundtrip (userId email secret : string) (span now now' : Z) :
  JwtUtils.accessSecret env = Some secret ->
  truthy (Some secret) = true ->
  timespan (JwtUtils.accessExpiresIn env) = Some span ->
  (let claims := Claims.mk (Payload.mk userId (Some email) None)
                   (now / 1000) (Some (now / 1000 + span)) in
   jws_verify secret (jws_sign secret claims) = Some claims) ->
  now' / 1000 < now / 1000 + span ->
  exists token verified,
    JwtUtils.generateAccessToken env (Payload.mk userId (Some email) None) now
    = Ok token
    /\ JwtUtils.verifyAccessToken env token now' = Ok verified
    /\ Payload.userId (Claims.payload verified) = userId
    /\ Payload.email (Claims.payload verified) = Some email.
Proof.
  intros Hsecret Hset Hspan Hlib Hfresh.
  unfold JwtUtils.generateAccessToken, JwtUtils.verifyAccessToken,
    Jwt.sign, Jwt.verify.
  rewrite Hsecret, Hspan. destruct secret as [| c k]; [discriminate |].
  eexists _, _. split; [reflexivity |].
  simpl in Hlib. rewrite Hlib. simpl.
  apply Z.leb_gt in Hfresh. rewrite Hfresh. repeat split.
Qed.

End Tokens.

(** ** The properties on the fixture *)

Lemma access_token_roundtrip_witness :
  exists token verified,
    JwtUtils.generateAccessToken (jwtLib := Fixture.jwt) Fixture.env
      (Payload.mk "u1" (Some "alice@example.com"%string) None) 1700000000000
    = Ok token
    /\ JwtUtils.verifyAccessToken (jwtLib := Fixture.jwt) Fixture.env token 1700000000500
       = Ok verified
    /\ Payload.userId (Claims.payload verified) = "u1"%string
    /\ Payload.email (Claims.payload verified) = Some "alice@example.com"%string.
Proof.
  apply (access_token_roundtrip (jwtLib := Fixture.jwt) Fixture.env
           "u1" "alice@example.com" "access-secret" 900 1700000000000 1700000000500);
    vm_compute; reflexivity.
Defined.

Lemma refreshToken_checks_in_order_witness :
  exists newAccessToken,
    fst (AuthController.refreshToken (jwtLib := Fixture.jwt) Fixture.env Fixture.world
           (Fixture.cookieRequest Fixture.aliceToken) Fixture.store)
    = AuthController.tokenRefreshed Fixture.env newAccessToken.
Proof.
  destruct (proj2 (proj2 (proj2 (proj2
              (refreshToken_checks_in_order (jwtLib := Fixture.jwt) Fixture.env
                 Fixture.world (Fixture.cookieRequest Fixture.aliceToken) Fixture.store
                 Fixture.aliceToken eq_refl eq_refl)))) eq_refl)
    as (claims & row & user & newAccessToken & _ & _ & _ & _ & _ & _ & Hresp).
  exists newAccessToken. exact Hresp.
Defined.

Lemma refreshToken_does_not_rotate_witness :
  exists token,
    refreshTokens (snd (AuthController.refreshToken (jwtLib := Fixture.jwt) Fixture.env
                          Fixture.world (Fixture.bearerRequest Fixture.aliceToken)
                          Fixture.store)) !! token
    = refreshTokens Fixture.store !! token.
Proof.
  destruct (proj2 (refreshToken_does_not_rotate (jwtLib := Fixture.jwt) Fixture.env
                     Fixture.world (Fixture.bearerRequest Fixture.aliceToken)
                     Fixture.store) eq_refl)
    as (token & newAccessToken & _ & _ & Hsame & _).
  exists token. exact Hsame.
Defined.

Lemma logoutAll_revokes_sessions_witness :
  fst (AuthController.refreshToken (jwtLib := Fixture.jwt) Fixture.env Fixture.world
         (Fixture.cookieRequest Fixture.aliceToken)
         (snd (AuthController.logoutAll
                 (Request.mk None None None (Some (AuthUser.mk "u1" "alice@example.com")))
                 Fixture.store)))
  = AuthController.refreshTokenExpired.
Proof.
  refine (proj2 (proj2 (proj2 (proj2 (proj2
            (logoutAll_revokes_sessions (jwtLib := Fixture.jwt) Fixture.env
               (Request.mk None None None (Some (AuthUser.mk "u1" "alice@example.com")))
               Fixture.store (AuthUser.mk "u1" "alice@example.com") eq_refl)))) 
            Fixture.aliceToken
            (RefreshToken.mk "u1" 1700604799000 1699999999000 1699999999000) _ _)
          Fixture.world (Fixture.cookieRequest Fixture.aliceToken)
          Fixture.aliceRefreshClaims _ _ _);
    vm_compute; reflexivity.
Defined.


Lemma login_failure_indistinguishable_witness :
  fst (AuthController.login (jwtLib := Fixture.jwt) (bcryptLib := Fixture.bcrypt)
         Fixture.env Fixture.world
         (Fixture.credentials "alice@example.com" "guess") (mkDb [] ∅))
  = fst (AuthController.login (jwtLib := Fixture.jwt) (bcryptLib := Fixture.bcrypt)
           Fixture.env Fixture.world
           (Fixture.credentials "alice@example.com" "guess") Fixture.store).
Proof.
  apply (login_failure_indistinguishable (jwtLib := Fixture.jwt)
           (bcryptLib := Fixture.bcrypt) Fixture.env Fixture.world Fixture.world
           (Fixture.credentials "alice@example.com" "guess") (mkDb [] ∅) Fixture.store).
  - intros body email _ _. reflexivity.
  - intros body email password [= <-] [= <-] [= <-].
    exists Fixture.alice. vm_compute. repeat split.
Defined.

Lemma register_duplicate_email_witness :
  fst (AuthController.register (jwtLib := Fixture.jwt) (bcryptLib := Fixture.bcrypt)
         Fixture.env Fixture.world
         (Fixture.credentials "alice@example.com" "pw123456") Fixture.store)
  = failure 409 "User with this email already exists" "USER_EXISTS".
Proof.
  apply (proj1 (proj2 (proj2 (proj2
           (register_duplicate_email (jwtLib := Fixture.jwt)
              (bcryptLib := Fixture.bcrypt) Fixture.env Fixture.world
              (Fixture.credentials "alice@example.com" "pw123456") Fixture.store
              (Body.mk (Some "alice@example.com"%string) (Some "pw123456"%string) None None)
              "alice@example.com" Fixture.alice eq_refl eq_refl eq_refl)))));
    reflexivity.
Defined.

(** C8, the claim as stated fails: a request for an email that has a user
    record, with an empty password, fails with VALIDATION_ERROR (400), not
    with the conflict. *)
Lemma register_duplicate_email_without_password :
  findByEmail "alice@example.com" (users Fixture.store) = Some Fixture.alice
  /\ AuthController.register (jwtLib := Fixture.jwt) (bcryptLib := Fixture.bcrypt)
       Fixture.env Fixture.world
       (Fixture.credentials "alice@example.com" "") Fixture.store
     = (failure 400 "Email and password are required" "VALIDATION_ERROR", Fixture.store)
  /\ status (fst (AuthController.register (jwtLib := Fixture.jwt)
                    (bcryptLib := Fixture.bcrypt) Fixture.env Fixture.world
                    (Fixture.credentials "alice@example.com" "") Fixture.store))
     <> 409.
Proof.
  split; [reflexivity | split; [reflexivity | discriminate]].
Qed.

Lemma session_user_view_hides_password_witness :
  exists user accessToken,
    data (json (fst (AuthController.login (jwtLib := Fixture.jwt)
                       (bcryptLib := Fixture.bcrypt) Fixture.env Fixture.world
                       (Fixture.credentials "alice@example.com" "pw123456")
                       Fixture.store)))
    = Some (AuthResponse (userView user) accessToken)
    /\ ~ In "password"%string (keys (userView user)).
Proof.
  destruct (session_user_view_hides_password (jwtLib := Fixture.jwt)
              (bcryptLib := Fixture.bcrypt) Fixture.env Fixture.world
              (Fixture.credentials "alice@example.com" "pw123456") Fixture.store
              _ _ (or_intror (surjective_pairing _)) eq_refl)
    as (user & accessToken & Hdata & _ & Hno & _).
  exists user, accessToken. split; assumption.
Defined.

(** * Further properties of the service *)

(** ** Issuing a session *)

Section Issuing.
Context {jwtLib : Jsonwebtoken} {bcryptLib : Bcryptjs} (env : Env).
Import AuthController.

(** [issueTokens], run: its five clock readings and its one write. *)
Lemma issueTokens_run (w : World) (userId email : string) (st : St) :
  issueTokens env w userId email st =
  let n := reads st in
  match JwtUtils.generateAccessToken env (Payload.mk userId (Some email) None)
          (clock w n) with
  | Throw e => (Throw e, mkSt (db st) (1 + n))
  | Ok accessToken =>
      match JwtUtils.generateRefreshToken env
              (refreshPayload w userId (clock w (1 + n))) (clock w (2 + n)) with
      | Throw e => (Throw e, mkSt (db st) (3 + n))
      | Ok refreshToken =>
          match JwtUtils.getTokenExpiration (clock w (3 + n))
                  (orDefault (JWT_REFRESH_EXPIRES_IN env) "7d") with
          | Throw e => (Throw e, mkSt (db st) (4 + n))
          | Ok InvalidDate =>
              (Throw "Invalid value for argument expiresAt", mkSt (db st) (5 + n))
          | Ok (ValidDate e) =>
              match refreshTokens (db st) !! refreshToken,
                    findById userId (users (db st)) with
              | None, Some _ =>
                  (Ok (accessToken, refreshToken),
                   mkSt (mkDb (users (db st))
                           (<[refreshToken :=
                                RefreshToken.mk userId e (clock w (4 + n)) (clock w (4 + n))]>
                              (refreshTokens (db st))))
                        (5 + n))
              | Some _, _ => (Throw "Unique constraint failed", mkSt (db st) (5 + n))
              | None, None => (Throw "Foreign key constraint failed", mkSt (db st) (5 + n))
              end
          end
      end
  end.
Proof.
  unfold issueTokens, refreshToken_create, refreshPayload. run_handler.
  destruct (JwtUtils.generateAccessToken env _ _); simpl; [| reflexivity].
  destruct (JwtUtils.generateRefreshToken env _ _); simpl; [| reflexivity].
  destruct (JwtUtils.getTokenExpiration _ _) as [[e |] |]; simpl; try reflexivity.
  destruct (refreshTokens (db st) !! _), (findById userId (users (db st)));
    reflexivity.
Qed.

(** The outcomes of [issueTokens]: it throws and writes nothing, or it
    returns both tokens and has stored the refresh token, which was not in
    the table, for a user that is. *)
Lemma issueTokens_cases (w : World) (userId email : string) (st st' : St)
    (r : result (string * string)) :
  issueTokens env w userId email st = (r, st') ->
  (exists msg, r = Throw msg /\ db st' = db st)
  \/ (exists accessToken refreshToken e,
        r = Ok (accessToken, refreshToken)
        /\ JwtUtils.generateAccessToken env (Payload.mk userId (Some email) None)
             (clock w (reads st)) = Ok accessToken
        /\ JwtUtils.getTokenExpiration (clock w (3 + reads st))
             (orDefault (JWT_REFRESH_EXPIRES_IN env) "7d") = Ok (ValidDate e)
        /\ refreshTokens (db st) !! refreshToken = None
        /\ (exists u, findById userId (users (db st)) = Some u)
        /\ db st' = mkDb (users (db st))
                      (<[refreshToken :=
                           RefreshToken.mk userId e (clock w (4 + reads st))
                             (clock w (4 + reads st))]> (refreshTokens (db st)))).
Proof.
  rewrite issueTokens_run. cbv zeta.
  destruct (JwtUtils.generateAccessToken env _ _) as [a | msg] eqn:Ha;
    [| intros [= <- <-]; left; eauto].
  destruct (JwtUtils.generateRefreshToken env _ _) as [tok | msg];
    [| intros [= <- <-]; left; eauto].
  destruct (JwtUtils.getTokenExpiration _ _) as [[e |] | msg] eqn:He;
    try (intros [= <- <-]; left; eauto).
  destruct (refreshTokens (db st) !! tok) as [row |] eqn:Hrow;
    [destruct (findById userId (users (db st))); intros [= <- <-]; left; eauto |].
  destruct (findById userId (users (db st))) as [u |] eqn:Hu;
    [| intros [= <- <-]; left; eauto].
  intros [= <- <-]. right. exists a, tok, e. simpl. eauto 10.
Qed.

(** [register] on a request with an email that no user has, run up to the
    issuing of the tokens. *)
Lemma register_run (w : World) (req : Request.t) (d : Db) (body : Body.t)
    (email password : string) :
  Request.body req = Some body ->
  Body.email body = Some email -> truthy (Some email) = true ->
  Body.password body = Some password -> truthy (Some password) = true ->
  findByEmail email (users d) = None ->
  register env w req d =
  match findById (cuid w) (users d) with
  | Some _ => (internalError, d)
  | None =>
      let u := registeredRow w body email password in
      match issueTokens env w (cuid w) email
              (mkSt (mkDb (users d ++ [u]) (refreshTokens d)) 1) with
      | (Ok (accessToken, refreshToken), st) =>
          (sessionResponse env 201 "User registered successfully" u
             accessToken refreshToken, db st)
      | (Throw _, st) => (internalError, db st)
      end
  end.
Proof.
  intros Hbody Hemail He Hpassword Hp Hfresh. unfold register.
  rewrite Hbody, Hemail, Hpassword, He, Hp. unfold user_create. run_handler.
  rewrite Hfresh. simpl. rewrite Hfresh.
  destruct (findById (cuid w) (users d)); simpl; [reflexivity |].
  destruct (issueTokens env w _ _ _) as [[[a r] | msg] st]; reflexivity.
Qed.

(** [login] for an active user whose password matches, run up to the
    issuing of the tokens. *)
Lemma login_run (w : World) (req : Request.t) (d : Db) (body : Body.t)
    (email password : string) (user : User.t) :
  Request.body req = Some body ->
  Body.email body = Some email -> truthy (Some email) = true ->
  Body.password body = Some password -> truthy (Some password) = true ->
  findByEmail email (users d) = Some user ->
  User.isActive user = true ->
  bcrypt_compare password (User.password user) = true ->
  login env w req d =
  match issueTokens env w (User.id user) (User.email user) (mkSt d 0) with
  | (Ok (accessToken, refreshToken), st) =>
      (sessionResponse env 200 "Login successful" user accessToken refreshToken, db st)
  | (Throw _, st) => (internalError, db st)
  end.
Proof.
  intros Hbody Hemail He Hpassword Hp Hfound Hact Hcmp. unfold login.
  rewrite Hbody, Hemail, Hpassword, He, Hp. run_handler.
  rewrite Hfound, Hact. simpl. rewrite Hcmp. simpl.
  destruct (issueTokens env w _ _ _) as [[[a r] | msg] st]; [| reflexivity].
  unfold sessionResponse, userView. rewrite Hact. reflexivity.
Qed.

(** The requests on which [login] gets as far as the password check. *)
Lemma login_success_inv (w : World) (req : Request.t) (d : Db) :
  success (json (fst (login env w req d))) = true ->
  exists body email password user,
    Request.body req = Some body
    /\ Body.email body = Some email /\ truthy (Some email) = true
    /\ Body.password body = Some password /\ truthy (Some password) = true
    /\ findByEmail email (users d) = Some user
    /\ User.isActive user = true
    /\ bcrypt_compare password (User.password user) = true.
Proof.
  unfold login.
  destruct (Request.body req) as [body |]; [| discriminate].
  destruct (Body.email body) as [email |] eqn:Hemail; [| discriminate].
  destruct (truthy (Some email)) eqn:He; [| discriminate].
  destruct (Body.password body) as [password |] eqn:Hpassword; [| discriminate].
  destruct (truthy (Some password)) eqn:Hp; [| discriminate].
  run_handler.
  destruct (findByEmail email (users d)) as [user |] eqn:Hfound; [| discriminate].
  destruct (User.isActive user) eqn:Hact; [| discriminate]. simpl.
  destruct (bcrypt_compare password (User.password user)) eqn:Hcmp; [| discriminate].
  intros _. exists body, email, password, user. auto 10.
Qed.

(** The requests on which [register] gets as far as the insertion. *)
Lemma register_success_inv (w : World) (req : Request.t) (d : Db) :
  success (json (fst (register env w req d))) = true ->
  exists body email password,
    Request.body req = Some body
    /\ Body.email body = Some email /\ truthy (Some email) = true
    /\ Body.password body = Some password /\ truthy (Some password) = true
    /\ findByEmail email (users d) = None.
Proof.
  unfold register.
  destruct (Request.body req) as [body |]; [| discriminate].
  destruct (Body.email body) as [email |] eqn:Hemail; [| discriminate].
  destruct (truthy (Some email)) eqn:He; [| discriminate].
  destruct (Body.password body) as [password |] eqn:Hpassword; [| discriminate].
  destruct (truthy (Some password)) eqn:Hp; [| discriminate].
  run_handler.
  destruct (findByEmail email (users d)) as [user |] eqn:Hfound; [discriminate |].
  intros _. exists body, email, password. auto 10.
Qed.

Lemma find_app_first {A : Type} (f : A -> bool) (l1 l2 : list A) :
  List.find f (l1 ++ l2)
  = match List.find f l1 with
    | Some x => Some x
    | None => List.find f l2
    end.
Proof.
  induction l1 as [| a l1 IH]; simpl; [reflexivity |].
  destruct (f a); [reflexivity | exact IH].
Qed.

Lemma findByEmail_self (u : User.t) : findByEmail (User.email u) [u] = Some u.
Proof. unfold findByEmail. simpl. now rewrite String.eqb_refl. Qed.

Lemma findById_self (u : User.t) : findById (User.id u) [u] = Some u.
Proof. unfold findById. simpl. now rewrite String.eqb_refl. Qed.

Lemma findByEmail_appended (us : list User.t) (u : User.t) :
  findByEmail (User.email u) us = None ->
  findByEmail (User.email u) (us ++ [u]) = Some u.
Proof.
  intros Hnone. unfold findByEmail in *. rewrite find_app_first, Hnone.
  apply findByEmail_self.
Qed.

Lemma findById_appended (us : list User.t) (u : User.t) :
  findById (User.id u) us = None ->
  findById (User.id u) (us ++ [u]) = Some u.
Proof.
  intros Hnone. unfold findById in *. rewrite find_app_first, Hnone.
  apply findById_self.
Qed.

(** X1.  A successful [register] answers 201 with the view of the row it
    has inserted and both cookies, and has written exactly this: one user
    row, appended, active, holding the bcrypt hash of the password at cost
    12; and one refresh-token record, under a token that was not in the
    table, owned by the new user and expiring at the date computed from
    the configured duration. *)
Theorem register_success_writes (w : World) (req : Request.t) (d : Db) :
  success (json (fst (register env w req d))) = true ->
  exists body email password accessToken refreshToken e,
    Request.body req = Some body
    /\ Body.email body = Some email
    /\ Body.password body = Some password
    /\ findByEmail email (users d) = None
    /\ fst (register env w req d)
       = sessionResponse env 201 "User registered successfully"
           (registeredRow w body email password) accessToken refreshToken
    /\ users (snd (register env w req d))
       = users d ++ [registeredRow w body email password]
    /\ refreshTokens d !! refreshToken = None
    /\ JwtUtils.getTokenExpiration (clock w 4)
         (orDefault (JWT_REFRESH_EXPIRES_IN env) "7d") = Ok (ValidDate e)
    /\ refreshTokens (snd (register env w req d))
       = <[refreshToken := RefreshToken.mk (cuid w) e (clock w 5) (clock w 5)]>
           (refreshTokens d).
Proof.
  intros Hok.
  destruct (register_success_inv w req d Hok)
    as (body & email & password & Hbody & Hemail & He & Hpassword & Hp & Hfresh).
  rewrite (register_run w req d body email password Hbody Hemail He Hpassword Hp Hfresh)
    in *.
  destruct (findById (cuid w) (users d)); [discriminate |]. cbv zeta in *.
  destruct (issueTokens env w _ _ _) as [[[a r] | msg] st] eqn:Hissue;
    [| discriminate].
  apply issueTokens_cases in Hissue
    as [(msg & [=] & _) | (a' & r' & e & [= <- <-] & _ & Hexp & Hnew & _ & Hdb)].
  simpl in *. exists body, email, password, a, r, e. rewrite Hdb. simpl.
  repeat split; assumption || reflexivity.
Qed.

(** X2.  When the insertion of the user succeeds and the issuing of the
    tokens then fails, [register] answers 500 and the user row stays in the
    table, without any refresh token; the same request sent again is
    refused with USER_EXISTS. *)
Theorem register_failure_keeps_row (w w' : World) (req : Request.t) (d : Db)
    (body : Body.t) (email password : string) :
  Request.body req = Some body ->
  Body.email body = Some email -> truthy (Some email) = true ->
  Body.password body = Some password -> truthy (Some password) = true ->
  findByEmail email (users d) = None ->
  findById (cuid w) (users d) = None ->
  success (json (fst (register env w req d))) = false ->
  register env w req d
  = (internalError,
     mkDb (users d ++ [registeredRow w body email password]) (refreshTokens d))
  /\ fst (register env w' req (snd (register env w req d)))
     = failure 409 "User with this email already exists" "USER_EXISTS".
Proof.
  intros Hbody Hemail He Hpassword Hp Hfresh Hid.
  rewrite (register_run w req d body email password Hbody Hemail He Hpassword Hp Hfresh).
  rewrite Hid. cbv zeta.
  destruct (issueTokens env w _ _ _) as [[[a r] | msg] st] eqn:Hissue;
    [discriminate |].
  apply issueTokens_cases in Hissue as [(msg' & _ & Hdb) | (a & r & e & [=] & _)].
  simpl in Hdb. simpl. rewrite Hdb. intros _. split; [reflexivity |].
  unfold register. rewrite Hbody, Hemail, Hpassword, He, Hp. run_handler.
  rewrite (findByEmail_appended (users d) (registeredRow w body email password) Hfresh).
  reflexivity.
Qed.

(** X3.  [login] writes only when it succeeds.  Then it answers 200 with
    the view of the user it has found by email and both cookies, leaves the
    user table as it was, and has stored one refresh-token record, under a
    token that was not in the table, owned by that user and expiring at
    the date computed from the configured duration. *)
Theorem login_writes_on_success_only (w : World) (req : Request.t) (d : Db) :
  (success (json (fst (login env w req d))) = false -> snd (login env w req d) = d)
  /\ (success (json (fst (login env w req d))) = true ->
      exists body email user accessToken refreshToken e,
        Request.body req = Some body
        /\ Body.email body = Some email
        /\ findByEmail email (users d) = Some user
        /\ fst (login env w req d)
           = sessionResponse env 200 "Login successful" user accessToken refreshToken
        /\ users (snd (login env w req d)) = users d
        /\ refreshTokens d !! refreshToken = None
        /\ JwtUtils.getTokenExpiration (clock w 3)
             (orDefault (JWT_REFRESH_EXPIRES_IN env) "7d") = Ok (ValidDate e)
        /\ refreshTokens (snd (login env w req d))
           = <[refreshToken :=
                 RefreshToken.mk (User.id user) e (clock w 4) (clock w 4)]>
               (refreshTokens d)).
Proof.
  split.
  - unfold login.
    destruct (Request.body req) as [body |]; [| reflexivity].
    destruct (negb (truthy (Body.email body)) || negb (truthy (Body.password body)))%bool;
      [reflexivity |].
    run_handler.
    destruct (findByEmail _ (users d)) as [user |]; [| reflexivity].
    destruct (User.isActive user); [| reflexivity]. simpl.
    destruct (bcrypt_compare _ _); [| reflexivity]. simpl.
    destruct (issueTokens env w _ _ _) as [[[a r] | msg] st] eqn:Hissue;
      [discriminate |].
    apply issueTokens_cases in Hissue as [(msg' & _ & Hdb) | (a & r & e & [=] & _)].
    intros _. exact Hdb.
  - intros Hok.
    destruct (login_success_inv w req d Hok)
      as (body & email & password & user & Hbody & Hemail & He & Hpassword & Hp
          & Hfound & Hact & Hcmp).
    rewrite (login_run w req d body email password user
               Hbody Hemail He Hpassword Hp Hfound Hact Hcmp) in *.
    destruct (issueTokens env w _ _ _) as [[[a r] | msg] st] eqn:Hissue;
      [| discriminate].
    apply issueTokens_cases in Hissue
      as [(msg & [=] & _) | (a' & r' & e & [= <- <-] & _ & Hexp & Hnew & _ & Hdb)].
    simpl in *. exists body, email, user, a, r, e. rewrite Hdb. simpl.
    repeat split; assumption || reflexivity.
Qed.

(** X4.  For a user whose active flag is off, [login] answers
    ACCOUNT_DEACTIVATED whatever the password is, right or wrong, and
    writes nothing: the password is not even compared. *)
Theorem login_deactivated (w : World) (req : Request.t) (d : Db) (body : Body.t)
    (email : string) (user : User.t) :
  Request.body req = Some body ->
  Body.email body = Some email -> truthy (Some email) = true ->
  truthy (Body.password body) = true ->
  findByEmail email (users d) = Some user ->
  User.isActive user = false ->
  login env w req d = (accountDeactivated, d).
Proof.
  intros Hbody Hemail He Hp Hfound Hact. unfold login.
  rewrite Hbody, Hemail, He, Hp. run_handler. rewrite Hfound, Hact. reflexivity.
Qed.

End Issuing.

(** ** Sessions from login to logout *)

Section Lifecycle.
Context {jwtLib : Jsonwebtoken} {bcryptLib : Bcryptjs} (env : Env).
Import AuthController.

Lemma findById_unique (us : list User.t) (u : User.t) :
  NoDup (List.map User.id us) -> In u us -> findById (User.id u) us = Some u.
Proof.
  unfold findById. induction us as [| a us IH]; simpl; [tauto |].
  intros Hnodup Hin. apply NoDup_cons in Hnodup as [Hfresh Hnodup].
  destruct Hin as [-> | Hin]; [now rewrite String.eqb_refl |].
  destruct (String.eqb (User.id a) (User.id u)) eqn:Heq; [| now apply IH].
  apply String.eqb_eq in Heq. exfalso. apply Hfresh. rewrite Heq.
  apply list_elem_of_In. now apply in_map.
Qed.

Lemma logout_run (req : Request.t) (d : Db) (token : string) :
  cookieRefreshToken req = Some token ->
  truthy (Some token) = true ->
  logout req d
  = (loggedOut "Logout successful", mkDb (users d) (delete token (refreshTokens d))).
Proof.
  intros Hc Ht. unfold logout. rewrite Hc, Ht. reflexivity.
Qed.

(** What a successful [login] leaves behind, for the theorems below. *)
Lemma login_session (w : World) (req : Request.t) (d : Db) :
  success (json (fst (login env w req d))) = true ->
  exists user accessToken refreshToken row,
    In user (users d)
    /\ User.isActive user = true
    /\ JwtUtils.generateAccessToken env (accessPayload user) (clock w 0) = Ok accessToken
    /\ cookieOps (fst (login env w req d))
       = [accessCookie env accessToken; refreshCookie env refreshToken]
    /\ RefreshToken.userId row = User.id user
    /\ refreshTokens d !! refreshToken = None
    /\ snd (login env w req d)
       = mkDb (users d) (<[refreshToken := row]> (refreshTokens d)).
Proof.
  intros Hok.
  destruct (login_success_inv env w req d Hok)
    as (body & email & password & user & Hbody & Hemail & He & Hpassword & Hp
        & Hfound & Hact & Hcmp).
  rewrite (login_run env w req d body email password user
             Hbody Hemail He Hpassword Hp Hfound Hact Hcmp) in *.
  destruct (issueTokens env w _ _ _) as [[[a r] | msg] st] eqn:Hissue;
    [| discriminate].
  apply issueTokens_cases in Hissue
    as [(msg & [=] & _) | (a' & r' & e & [= <- <-] & Hgen & _ & Hnew & _ & Hdb)].
  simpl in Hgen, Hnew, Hdb. simpl.
  exists user, a, r, (RefreshToken.mk (User.id user) e (clock w 4) (clock w 4)).
  apply find_some in Hfound as [Hin _]. rewrite Hdb.
  repeat split; assumption || reflexivity.
Qed.

(** X5.  The refresh token that a successful [login] sets in the cookie has
    a stored record, and a later [refreshToken] request that presents it
    succeeds, provided the token verifies then and the stored expiry has
    not passed.  (The user ids of the table are distinct, as [@id]
    makes them.) *)
Theorem login_then_refresh (w w' : World) (req req' : Request.t) (d : Db) :
  NoDup (List.map User.id (users d)) ->
  success (json (fst (login env w req d))) = true ->
  exists accessToken refreshToken row,
    cookieOps (fst (login env w req d))
    = [accessCookie env accessToken; refreshCookie env refreshToken]
    /\ refreshTokens (snd (login env w req d)) !! refreshToken = Some row
    /\ (presentedRefreshToken req' = Some refreshToken ->
        truthy (Some refreshToken) = true ->
        (exists claims,
            JwtUtils.verifyRefreshToken env refreshToken (clock w' 0) = Ok claims) ->
        clock w' 1 <= RefreshToken.expiresAt row ->
        success (json (fst (AuthController.refreshToken env w' req'
                              (snd (login env w req d)))))
        = true).
Proof.
  intros Hunique Hok.
  destruct (login_session w req d Hok)
    as (user & a & r & row & Hin & Hact & Hgen & Hcookies & Howner & Hnew & Hdb).
  exists a, r, row. rewrite Hdb. simpl. rewrite lookup_insert_eq.
  split; [assumption |]. split; [reflexivity |].
  intros Hp Ht [claims Hver] Hexp.
  rewrite (refreshToken_run env w' req' _ r Hp Ht). simpl.
  rewrite Hver, lookup_insert_eq. apply Z.ltb_ge in Hexp. rewrite Hexp, Howner.
  rewrite (findById_unique (users d) user Hunique Hin), Hact. simpl.
  destruct (generateAccessToken_total env _ (accessPayload user) _ (clock w' 2) _ Hgen)
    as [tok ->].
  reflexivity.
Qed.

(** X6.  [logout] with the refresh token that a successful [login] has just
    set in the cookie puts the tables back as they were before the login. *)
Theorem login_then_logout (w : World) (req req' : Request.t) (d : Db) :
  success (json (fst (login env w req d))) = true ->
  exists accessToken refreshToken,
    cookieOps (fst (login env w req d))
    = [accessCookie env accessToken; refreshCookie env refreshToken]
    /\ (cookieRefreshToken req' = Some refreshToken ->
        truthy (Some refreshToken) = true ->
        snd (logout req' (snd (login env w req d))) = d).
Proof.
  intros Hok.
  destruct (login_session w req d Hok)
    as (user & a & r & row & _ & _ & _ & Hcookies & _ & Hnew & Hdb).
  exists a, r. split; [assumption |]. intros Hc Ht.
  rewrite (logout_run req' _ r Hc Ht), Hdb. simpl.
  rewrite delete_insert_eq, (delete_id _ _ Hnew). now destruct d.
Qed.

(** X7.  [logout] with a refresh token in the cookie revokes that session
    and no other: a [refreshToken] request with the token is refused with
    REFRESH_TOKEN_EXPIRED although the token verifies, the records of all
    other tokens and the users are as they were, and a second [logout]
    changes nothing more. *)
Theorem logout_revokes_one_session (req : Request.t) (d : Db) (token : string) :
  cookieRefreshToken req = Some token ->
  truthy (Some token) = true ->
  let d' := snd (logout req d) in
  users d' = users d
  /\ (forall other, other <> token ->
        refreshTokens d' !! other = refreshTokens d !! other)
  /\ (forall (w : World) (req' : Request.t) (claims : Claims.t),
        presentedRefreshToken req' = Some token ->
        JwtUtils.verifyRefreshToken env token (clock w 0) = Ok claims ->
        fst (refreshToken env w req' d') = refreshTokenExpired)
  /\ logout req d' = (loggedOut "Logout successful", d').
Proof.
  intros Hc Ht d'. subst d'. rewrite (logout_run req d token Hc Ht). simpl.
  split; [reflexivity |]. split; [| split].
  - intros other Hother. now apply lookup_delete_ne.
  - intros w req' claims Hp Hver.
    rewrite (refreshToken_run env w req' _ token Hp Ht). simpl.
    now rewrite Hver, lookup_delete_eq.
  - rewrite (logout_run req _ token Hc Ht). simpl. now rewrite delete_delete_eq.
Qed.

(** X8.  [refreshToken] takes the token of the cookie whenever there is
    one: the outcome is then the same whatever the Authorization header
    holds.  Without a cookie token and without a Bearer header it answers
    REFRESH_TOKEN_REQUIRED and reads neither the clock nor the tables. *)
Theorem refreshToken_cookie_first (w : World) (d : Db) (body : option Body.t)
    (cookies : option Cookies.t) (user : option AuthUser.t) :
  (truthy (cookieRefreshToken (Request.mk body cookies None user)) = true ->
   forall header header',
     refreshToken env w (Request.mk body cookies header user) d
     = refreshToken env w (Request.mk body cookies header' user) d)
  /\ (truthy (cookieRefreshToken (Request.mk body cookies None user)) = false ->
      forall header,
        startsWith (str header) "Bearer " = false ->
        refreshToken env w (Request.mk body cookies header user) d
        = (refreshTokenRequired, d)).
Proof.
  split.
  - intros Ht header header'. unfold refreshToken, presentedRefreshToken.
    unfold cookieRefreshToken in *. simpl in *. now rewrite Ht.
  - intros Ht header Hscheme. apply refreshToken_absent.
    unfold presentedRefreshToken. unfold cookieRefreshToken in *. simpl in *.
    rewrite Ht, Hscheme. simpl. destruct (truthy header); exact Ht.
Qed.

(** X22.  After a successful [register], [login] with the same request
    accepts the credentials, provided [bcrypt.compare] accepts the password
    against the hash that [bcrypt.hash] made of it: the answer is the 200
    session response for the registered row, or 500 when the issuing of the
    tokens fails, and never INVALID_CREDENTIALS or ACCOUNT_DEACTIVATED. *)
Theorem register_then_login (w w' : World) (req : Request.t) (d : Db) :
  success (json (fst (register env w req d))) = true ->
  (forall password,
     bcrypt_compare password (bcrypt_hash password 12 (salt w)) = true) ->
  exists body email password,
    Request.body req = Some body
    /\ Body.email body = Some email
    /\ Body.password body = Some password
    /\ (fst (login env w' req (snd (register env w req d))) = internalError
        \/ exists access refresh,
             fst (login env w' req (snd (register env w req d)))
             = sessionResponse env 200 "Login successful"
                 (registeredRow w body email password) access refresh).
Proof.
  intros Hok Hcompare.
  destruct (register_success_inv env w req d Hok)
    as (body & email & password & Hbody & Hemail & He & Hpassword & Hp & Hfresh).
  exists body, email, password. repeat split; try assumption.
  assert (users (snd (register env w req d))
          = users d ++ [registeredRow w body email password]) as Husers.
  { rewrite (register_run env w req d body email password
               Hbody Hemail He Hpassword Hp Hfresh) in *.
    destruct (findById (cuid w) (users d)); [discriminate |]. cbv zeta in *.
    destruct (issueTokens env w _ _ _) as [[[a r] | msg] st] eqn:Hissue;
      [| discriminate].
    apply issueTokens_cases in Hissue
      as [(msg & [=] & _) | (a' & r' & e & _ & _ & _ & _ & _ & Hdb)].
    simpl in Hdb. simpl. now rewrite Hdb. }
  rewrite (login_run env w' req _ body email password
             (registeredRow w body email password) Hbody Hemail He Hpassword Hp).
  - destruct (issueTokens env w' _ _ _) as [[[a r] | msg] st]; simpl; eauto.
  - rewrite Husers.
    apply (findByEmail_appended (users d) (registeredRow w body email password) Hfresh).
  - reflexivity.
  - apply Hcompare.
Qed.

End Lifecycle.

(** ** The authentication middleware *)

Section Gate.
Context {jwtLib : Jsonwebtoken} (env : Env).
Import Middleware.

(** A token that is presented comes from the header or from the cookie. *)
Lemma presentedAccessToken_source (req : Request.t) (token : string) :
  presentedAccessToken req = Some token ->
  JwtUtils.extractTokenFromHeader (Request.authorization req) = Some token
  \/ cookieAccessToken req = Some token.
Proof.
  unfold presentedAccessToken.
  destruct (negb _ && truthy (cookieAccessToken req))%bool; auto.
Qed.

Lemma authenticateToken_run (now : Z) (req : Request.t) (token : string) :
  presentedAccessToken req = Some token ->
  truthy (Some token) = true ->
  authenticateToken env now req
  = match JwtUtils.verifyAccessToken env token now with
    | Ok decoded => Next (setUser req (Some (identityOf decoded)))
    | Throw _ => Reply accessTokenInvalid
    end.
Proof.
  intros Hp Ht. unfold authenticateToken. rewrite Hp, Ht. reflexivity.
Qed.

Lemma presentedAccessToken_bearer (body : option Body.t) (cookies : option Cookies.t)
    (user : option AuthUser.t) (token : string) :
  truthy (Some token) = true ->
  presentedAccessToken (Request.mk body cookies (Some ("Bearer " +:+ token)) user)
  = Some token.
Proof.
  intros Ht. unfold presentedAccessToken.
  change (JwtUtils.extractTokenFromHeader
            (Request.authorization
               (Request.mk body cookies (Some ("Bearer " +:+ token)) user)))
    with (Some token).
  now rewrite Ht.
Qed.

(** What [authenticateToken] has checked when it passes a request on. *)
Lemma authenticateToken_Next (now : Z) (req req' : Request.t) :
  authenticateToken env now req = Next req' ->
  exists token decoded,
    presentedAccessToken req = Some token
    /\ truthy (Some token) = true
    /\ JwtUtils.verifyAccessToken env token now = Ok decoded
    /\ req' = setUser req (Some (identityOf decoded)).
Proof.
  unfold authenticateToken.
  destruct (presentedAccessToken req) as [token |] eqn:Hp; [| discriminate].
  destruct (truthy (Some token)) eqn:Ht; simpl; [| discriminate].
  destruct (JwtUtils.verifyAccessToken env token now) as [decoded | msg] eqn:Hver;
    [| discriminate].
  intros [= <-]. exists token, decoded. auto.
Qed.

Lemma authenticateToken_Reply (now : Z) (req : Request.t) (r : Response) :
  authenticateToken env now req = Reply r ->
  r = accessTokenRequired \/ r = accessTokenInvalid.
Proof.
  unfold authenticateToken.
  destruct (truthy (presentedAccessToken req)); simpl; [| intros [= <-]; now left].
  destruct (JwtUtils.verifyAccessToken env _ now); [discriminate |].
  intros [= <-]. now right.
Qed.

(** X9.  [authenticateToken] passes a request on only when a token that it
    presents, in a Bearer header or else in the [accessToken] cookie,
    verifies with the access secret; the request it passes on is the same
    request with [user] set to the [userId] and [email] of that token.  In
    every other case it answers 401 UNAUTHORIZED. *)
Theorem authenticateToken_sound (now : Z) (req : Request.t) :
  (forall req', authenticateToken env now req = Next req' ->
     exists token decoded,
       (JwtUtils.extractTokenFromHeader (Request.authorization req) = Some token
        \/ cookieAccessToken req = Some token)
       /\ truthy (Some token) = true
       /\ JwtUtils.verifyAccessToken env token now = Ok decoded
       /\ req' = setUser req (Some (identityOf decoded)))
  /\ (forall r, authenticateToken env now req = Reply r ->
        r = accessTokenRequired \/ r = accessTokenInvalid).
Proof.
  split.
  - intros req' Hnext.
    destruct (authenticateToken_Next now req req' Hnext)
      as (token & decoded & Hp & Ht & Hver & Hreq).
    exists token, decoded. apply presentedAccessToken_source in Hp. auto.
  - apply authenticateToken_Reply.
Qed.

(** X10.  A non-empty Bearer token in the Authorization header decides
    alone: [authenticateToken] never looks at the [accessToken] cookie
    then, so that a header token that fails verification is refused whatever
    the cookies hold, and a header token that verifies gives its own
    identity. *)
Theorem authenticateToken_header_first (now : Z) (token : string)
    (body : option Body.t) (cookies : option Cookies.t) (user : option AuthUser.t) :
  truthy (Some token) = true ->
  let req := Request.mk body cookies (Some ("Bearer " +:+ token)) user in
  (forall msg, JwtUtils.verifyAccessToken env token now = Throw msg ->
     authenticateToken env now req = Reply accessTokenInvalid)
  /\ (forall decoded, JwtUtils.verifyAccessToken env token now = Ok decoded ->
        authenticateToken env now req
        = Next (Request.mk body cookies (Some ("Bearer " +:+ token))
                  (Some (identityOf decoded)))).
Proof.
  intros Ht req. subst req.
  rewrite (authenticateToken_run now _ token
             (presentedAccessToken_bearer body cookies user token Ht) Ht).
  split.
  - intros msg ->. reflexivity.
  - intros decoded ->. reflexivity.
Qed.

(** X11.  [optionalAuth] never answers: it always passes the request on.  It
    passes on exactly what [authenticateToken] passes on when that one lets
    the request through; when that one refuses, the request goes on
    without identity if it presents a token, and untouched if it presents
    none. *)
Theorem optionalAuth_never_rejects (now : Z) (req : Request.t) :
  (forall req', authenticateToken env now req = Next req' ->
     optionalAuth env now req = Next req')
  /\ (authenticateToken env now req = Reply accessTokenInvalid ->
      optionalAuth env now req = Next (setUser req None))
  /\ (authenticateToken env now req = Reply accessTokenRequired ->
      optionalAuth env now req = Next req)
  /\ exists req', optionalAuth env now req = Next req'.
Proof.
  unfold authenticateToken, optionalAuth.
  destruct (truthy (presentedAccessToken req)); simpl.
  - destruct (JwtUtils.verifyAccessToken env _ now) as [decoded | msg];
      repeat split; try discriminate; eauto.
  - repeat split; try discriminate; eauto.
Qed.

End Gate.

(** ** Durations and expiry *)

Section Expiry.
Context {jwtLib : Jsonwebtoken} (env : Env).

Lemma digitValue_nonneg (c : ascii) :
  JwtUtils.isDigit c = true -> 0 <= JwtUtils.digitValue c.
Proof.
  unfold JwtUtils.isDigit, JwtUtils.digitValue. intros Hc.
  apply andb_true_iff in Hc as [Hlow _]. apply Nat.leb_le in Hlow. lia.
Qed.

Lemma parseIntFrom_nonneg (ds : string) (acc : Z) :
  0 <= acc -> allDigits ds = true -> 0 <= JwtUtils.parseIntFrom acc ds.
Proof.
  revert acc. induction ds as [| c ds IH]; simpl; intros acc Hacc Hds; [assumption |].
  apply andb_true_iff in Hds as [Hc Hds]. apply IH; [| assumption].
  pose proof (digitValue_nonneg c Hc). lia.
Qed.

(** X12.  A date that [getTokenExpiration] returns is never before the
    time at which it is computed: an accepted duration has no sign. *)
Theorem getTokenExpiration_not_before_now (now t : Z) (expiresIn : string) :
  JwtUtils.getTokenExpiration now expiresIn = Ok (ValidDate t) -> now <= t.
Proof.
  destruct (JwtUtils.matchDuration expiresIn) as [[ds u] |] eqn:Hmatch.
  - apply matchDuration_shape in Hmatch. pose proof Hmatch as (_ & _ & Hds & Hu).
    rewrite (getTokenExpiration_shape now expiresIn ds u Hmatch).
    pose proof (parseIntFrom_nonneg ds 0 (Z.le_refl 0) Hds) as Hvalue.
    fold (JwtUtils.parseInt ds) in Hvalue.
    assert (0 < unitSeconds u) as Hunit
      by (destruct Hu as [-> | [-> | [-> | ->]]]; reflexivity).
    unfold newDate. destruct (Z.abs _ <=? maxTimeValue); [| discriminate].
    intros [= <-]. nia.
  - unfold JwtUtils.getTokenExpiration. rewrite Hmatch. discriminate.
Qed.

(** X13.  A minted access token stops verifying at the second of its [exp]
    claim: when the access secret and the duration are configured and the
    signature check of the library accepts the token it has signed,
    [verifyAccessToken] at or after that second throws "Invalid access
    token", as it does for any other defect. *)
Theorem access_token_expires (userId email secret : string) (span now now' : Z) :
  JwtUtils.accessSecret env = Some secret ->
  truthy (Some secret) = true ->
  timespan (JwtUtils.accessExpiresIn env) = Some span ->
  (let claims := Claims.mk (Payload.mk userId (Some email) None)
                   (now / 1000) (Some (now / 1000 + span)) in
   jws_verify secret (jws_sign secret claims) = Some claims) ->
  now / 1000 + span <= now' / 1000 ->
  exists token,
    JwtUtils.generateAccessToken env (Payload.mk userId (Some email) None) now
    = Ok token
    /\ JwtUtils.verifyAccessToken env token now' = Throw "Invalid access token".
Proof.
  intros Hsecret Hset Hspan Hlib Hlate.
  unfold JwtUtils.generateAccessToken, JwtUtils.verifyAccessToken,
    Jwt.sign, Jwt.verify.
  rewrite Hsecret, Hspan. destruct secret as [| c k]; [discriminate |].
  eexists. split; [reflexivity |].
  simpl in Hlib. rewrite Hlib. simpl.
  apply Z.leb_le in Hlate. now rewrite Hlate.
Qed.

End Expiry.

(** ** The profile *)

Section Profiles.
Context {jwtLib : Jsonwebtoken} {bcryptLib : Bcryptjs} (env : Env).
Import ProfileController.

Lemma findById_id (id : string) (us : list User.t) (u : User.t) :
  findById id us = Some u -> In u us /\ User.id u = id.
Proof.
  intros Hfound. apply find_some in Hfound as [Hin Heq].
  apply String.eqb_eq in Heq. auto.
Qed.

Lemma findById_rehash (rehash : User.t -> string) (id : string) (us : list User.t) :
  findById id (List.map (fun u => User.withPassword (rehash u) u) us)
  = match findById id us with
    | Some u => Some (User.withPassword (rehash u) u)
    | None => None
    end.
Proof.
  unfold findById. induction us as [| a us IH]; simpl; [reflexivity |].
  destruct (String.eqb (User.id a) id); [reflexivity | exact IH].
Qed.

Lemma getProfile_run (req : Request.t) (d : Db) (identity : AuthUser.t) :
  Request.user req = Some identity ->
  getProfile req d
  = (match findById (AuthUser.userId identity) (users d) with
     | Some u =>
         ProfileResponse.mk 200 true "Profile retrieved successfully" None
           (Some (Selected.of_user u))
     | None => failed 404 "User not found" "USER_NOT_FOUND"
     end, d).
Proof.
  intros Huser. unfold getProfile, user_findUnique_id_select. rewrite Huser.
  run_handler. destruct (findById _ (users d)); reflexivity.
Qed.

(** X14.  [getProfile] never writes, and what it sends does not depend on
    any password column: with every stored hash replaced the response is
    the same.  When it succeeds the data is the selection of a stored row
    whose id is the [userId] of the request's identity. *)
Theorem getProfile_ignores_passwords (req : Request.t) (us : list User.t)
    (tokens : gmap string RefreshToken.t) (rehash : User.t -> string) :
  snd (getProfile req (mkDb us tokens)) = mkDb us tokens
  /\ fst (getProfile req
            (mkDb (List.map (fun u => User.withPassword (rehash u) u) us) tokens))
     = fst (getProfile req (mkDb us tokens))
  /\ (ProfileResponse.success (fst (getProfile req (mkDb us tokens))) = true ->
      exists identity u,
        Request.user req = Some identity
        /\ In u us
        /\ User.id u = AuthUser.userId identity
        /\ ProfileResponse.data (fst (getProfile req (mkDb us tokens)))
           = Some (Selected.of_user u)).
Proof.
  destruct (Request.user req) as [identity |] eqn:Huser.
  - rewrite !(getProfile_run req _ identity Huser). simpl.
    rewrite findById_rehash.
    destruct (findById (AuthUser.userId identity) us) as [u |] eqn:Hfound; simpl.
    + repeat split. intros _. exists identity, u.
      apply findById_id in Hfound as [Hin Hid]. auto.
    + repeat split. discriminate.
  - unfold getProfile. rewrite Huser. simpl. repeat split. discriminate.
Qed.

(** X15.  After a successful [register], [getProfile] for the identity of
    the new row (its id is the [cuid] that the insertion drew) answers 200
    with the selection of exactly that row: the email and names of the
    request, active, created at the first clock reading. *)
Theorem register_then_getProfile (w : World) (req req' : Request.t) (d : Db)
    (identity : AuthUser.t) :
  success (json (fst (AuthController.register env w req d))) = true ->
  Request.user req' = Some identity ->
  AuthUser.userId identity = cuid w ->
  exists body email password,
    Request.body req = Some body
    /\ Body.email body = Some email
    /\ Body.password body = Some password
    /\ fst (getProfile req' (snd (AuthController.register env w req d)))
       = ProfileResponse.mk 200 true "Profile retrieved successfully" None
           (Some (Selected.mk (cuid w) email (Body.firstName body)
                    (Body.lastName body) true (clock w 0) (clock w 0))).
Proof.
  intros Hok Huser Hid.
  destruct (register_success_inv env w req d Hok)
    as (body & email & password & Hbody & Hemail & He & Hpassword & Hp & Hfresh).
  exists body, email, password. repeat split; try assumption.
  rewrite (getProfile_run req' _ identity Huser), Hid.
  rewrite (register_run env w req d body email password
             Hbody Hemail He Hpassword Hp Hfresh) in *.
  destruct (findById (cuid w) (users d)) eqn:Hnew; [discriminate |]. cbv zeta in *.
  destruct (AuthController.issueTokens env w _ _ _) as [[[a r] | msg] st] eqn:Hissue;
    [| discriminate].
  apply issueTokens_cases in Hissue
    as [(msg & [=] & _) | (a' & r' & e & _ & _ & _ & _ & _ & Hdb)].
  simpl in Hdb. simpl. rewrite Hdb. simpl.
  rewrite (findById_appended (users d) (registeredRow w body email password) Hnew).
  reflexivity.
Qed.

End Profiles.

(** ** Invariants of the tables *)

Section Invariants.
Context {jwtLib : Jsonwebtoken} {bcryptLib : Bcryptjs} (env : Env).
Import AuthController.

Lemma findById_None_fresh (id : string) (us : list User.t) :
  findById id us = None -> id ∉ List.map User.id us.
Proof.
  intros Hnone Hin. apply list_elem_of_In, in_map_iff in Hin as (u & <- & Hin).
  pose proof (find_none _ _ Hnone u Hin) as Hne. simpl in Hne.
  now rewrite String.eqb_refl in Hne.
Qed.

Lemma findByEmail_None_fresh (email : string) (us : list User.t) :
  findByEmail email us = None -> email ∉ List.map User.email us.
Proof.
  intros Hnone Hin. apply list_elem_of_In, in_map_iff in Hin as (u & <- & Hin).
  pose proof (find_none _ _ Hnone u Hin) as Hne. simpl in Hne.
  now rewrite String.eqb_refl in Hne.
Qed.

Lemma findById_extended (id : string) (us more : list User.t) (u : User.t) :
  findById id us = Some u -> findById id (us ++ more) = Some u.
Proof.
  intros Hfound. unfold findById in *. now rewrite find_app_first, Hfound.
Qed.

(** What [register] can do to the tables, whatever it answers. *)
Lemma register_effect (w : World) (req : Request.t) (d : Db) :
  let d' := snd (register env w req d) in
  (users d' = users d
   \/ exists u, users d' = users d ++ [u]
                /\ findById (User.id u) (users d) = None
                /\ findByEmail (User.email u) (users d) = None)
  /\ (refreshTokens d' = refreshTokens d
      \/ exists token row u,
           refreshTokens d' = <[token := row]> (refreshTokens d)
           /\ findById (RefreshToken.userId row) (users d') = Some u).
Proof.
  unfold register.
  destruct (Request.body req) as [body |]; [| simpl; auto].
  destruct (negb (truthy (Body.email body)) || negb (truthy (Body.password body)))%bool;
    [simpl; auto |].
  unfold user_create. run_handler.
  destruct (findByEmail _ (users d)) eqn:Hemail; simpl; [auto |]. rewrite Hemail.
  destruct (findById (cuid w) (users d)) eqn:Hid; simpl; [auto |].
  destruct (issueTokens env w _ _ _) as [res st] eqn:Hissue.
  apply issueTokens_cases in Hissue
    as [(msg' & -> & Hdb) | (a' & r' & e & -> & _ & _ & _ & (u & Hu) & Hdb)];
    simpl in Hdb; simpl; rewrite Hdb; simpl.
  - split; [right | left]; eauto 10.
  - simpl in Hu. split; [right | right]; eauto 10.
Qed.

(** What [login] can do to the tables, whatever it answers. *)
Lemma login_effect (w : World) (req : Request.t) (d : Db) :
  let d' := snd (login env w req d) in
  users d' = users d
  /\ (refreshTokens d' = refreshTokens d
      \/ exists token row u,
           refreshTokens d' = <[token := row]> (refreshTokens d)
           /\ findById (RefreshToken.userId row) (users d) = Some u).
Proof.
  unfold login.
  destruct (Request.body req) as [body |]; [| simpl; auto].
  destruct (negb (truthy (Body.email body)) || negb (truthy (Body.password body)))%bool;
    [simpl; auto |].
  run_handler.
  destruct (findByEmail _ (users d)) as [user |]; simpl; [| auto].
  destruct (User.isActive user); simpl; [| auto].
  destruct (bcrypt_compare _ _); simpl; [| auto].
  destruct (issueTokens env w _ _ _) as [res st] eqn:Hissue.
  apply issueTokens_cases in Hissue
    as [(msg' & -> & Hdb) | (a' & r' & e & -> & _ & _ & _ & (u & Hu) & Hdb)];
    simpl in Hdb; simpl; rewrite Hdb; simpl.
  - split; [reflexivity | left]; eauto 10.
  - simpl in Hu. split; [reflexivity | right]; eauto 10.
Qed.

Lemma refreshToken_effect (w : World) (req : Request.t) (d : Db) :
  snd (refreshToken env w req d) = d.
Proof.
  destruct (truthy (presentedRefreshToken req)) eqn:Ht.
  - destruct (presentedRefreshToken req) as [token |] eqn:Hp; [| discriminate].
    now rewrite (refreshToken_run env w req d token Hp Ht).
  - now rewrite (refreshToken_absent env w req d Ht).
Qed.

Lemma logout_effect (req : Request.t) (d : Db) :
  users (snd (logout req d)) = users d
  /\ forall token row, refreshTokens (snd (logout req d)) !! token = Some row ->
       refreshTokens d !! token = Some row.
Proof.
  unfold logout. destruct (truthy (cookieRefreshToken req)); simpl; [| auto].
  split; [reflexivity |]. intros token row Hrow.
  apply lookup_delete_Some in Hrow. tauto.
Qed.

Lemma logoutAll_effect (req : Request.t) (d : Db) :
  users (snd (logoutAll req d)) = users d
  /\ forall token row, refreshTokens (snd (logoutAll req d)) !! token = Some row ->
       refreshTokens d !! token = Some row.
Proof.
  unfold logoutAll. destruct (Request.user req); simpl; [| auto].
  split; [reflexivity |]. intros token row Hrow.
  now apply map_lookup_filter_Some in Hrow as [Hrow _].
Qed.

(** X16.  No handler removes or rewrites a user row: after [register] the
    user table is the one before with at most one row appended, and
    [login], [refreshToken], [logout] and [logoutAll] leave it as it is. *)
Theorem handlers_never_remove_users (w : World) (req : Request.t) (d : Db) :
  (users (snd (register env w req d)) = users d
   \/ exists u, users (snd (register env w req d)) = users d ++ [u])
  /\ users (snd (login env w req d)) = users d
  /\ users (snd (refreshToken env w req d)) = users d
  /\ users (snd (logout req d)) = users d
  /\ users (snd (logoutAll req d)) = users d.
Proof.
  split; [| split; [| split; [| split]]].
  - destruct (register_effect w req d) as [[Hsame | (u & Hadd & _)] _]; eauto.
  - apply login_effect.
  - now rewrite refreshToken_effect.
  - apply logout_effect.
  - apply logoutAll_effect.
Qed.

(** X17.  Every handler keeps the ids and the emails of the user table
    distinct: [register] appends a row only after it has found neither its
    email nor its id in the table. *)
Theorem handlers_keep_users_unique (w : World) (req : Request.t) (d : Db) :
  uniqueUsers (users d) ->
  uniqueUsers (users (snd (register env w req d)))
  /\ uniqueUsers (users (snd (login env w req d)))
  /\ uniqueUsers (users (snd (refreshToken env w req d)))
  /\ uniqueUsers (users (snd (logout req d)))
  /\ uniqueUsers (users (snd (logoutAll req d))).
Proof.
  intros Hunique. split; [| split; [| split; [| split]]].
  - destruct (register_effect w req d) as [[-> | (u & -> & Hid & Hemail)] _];
      [assumption |].
    destruct Hunique as [Hids Hemails]. unfold uniqueUsers.
    rewrite !map_app. simpl. split; apply NoDup_app.
    + split; [assumption |]. split; [| apply NoDup_singleton].
      intros x Hx Hx'. apply list_elem_of_singleton in Hx' as ->.
      now apply (findById_None_fresh _ _ Hid).
    + split; [assumption |]. split; [| apply NoDup_singleton].
      intros x Hx Hx'. apply list_elem_of_singleton in Hx' as ->.
      now apply (findByEmail_None_fresh _ _ Hemail).
  - now rewrite (proj1 (login_effect w req d)).
  - now rewrite refreshToken_effect.
  - now rewrite (proj1 (logout_effect req d)).
  - now rewrite (proj1 (logoutAll_effect req d)).
Qed.

(** X18.  Every handler keeps the owner of every stored refresh token in
    the user table: a record is stored only for a user that is there, and
    no user is ever removed. *)
Theorem handlers_keep_owners (w : World) (req : Request.t) (d : Db) :
  ownersExist d ->
  ownersExist (snd (register env w req d))
  /\ ownersExist (snd (login env w req d))
  /\ ownersExist (snd (refreshToken env w req d))
  /\ ownersExist (snd (logout req d))
  /\ ownersExist (snd (logoutAll req d)).
Proof.
  intros Howners. unfold ownersExist in *. split; [| split; [| split; [| split]]].
  - destruct (register_effect w req d) as [Husers Htokens].
    intros token row Hrow.
    assert (forall id u, findById id (users d) = Some u ->
              exists u', findById id (users (snd (register env w req d))) = Some u')
      as Hgrow.
    { intros id u Hu. destruct Husers as [-> | (u' & -> & _)]; [eauto |].
      eauto using findById_extended. }
    destruct Htokens as [Hsame | (token' & row' & u & Hadd & Hu)].
    + rewrite Hsame in Hrow. destruct (Howners token row Hrow) as [u Hu]. eauto.
    + rewrite Hadd in Hrow. apply lookup_insert_Some in Hrow
        as [[_ <-] | [_ Hrow]]; [eauto |].
      destruct (Howners token row Hrow) as [u' Hu']. eauto.
  - destruct (login_effect w req d) as [Husers Htokens].
    intros token row Hrow. rewrite Husers.
    destruct Htokens as [Hsame | (token' & row' & u & Hadd & Hu)].
    + rewrite Hsame in Hrow. eauto.
    + rewrite Hadd in Hrow. apply lookup_insert_Some in Hrow
        as [[_ <-] | [_ Hrow]]; eauto.
  - now rewrite refreshToken_effect.
  - destruct (logout_effect req d) as [Husers Htokens].
    intros token row Hrow. rewrite Husers. eauto.
  - destruct (logoutAll_effect req d) as [Husers Htokens].
    intros token row Hrow. rewrite Husers. eauto.
Qed.

End Invariants.

(** ** The protected routes *)

Section Routes.
Context {jwtLib : Jsonwebtoken} {bcryptLib : Bcryptjs} (env : Env).
Import Middleware.

(** X19.  The route [POST /logout-all] writes only for a request whose
    access token verifies, and then it deletes the refresh-token records of
    the user named in that token, and only those; without such a token it
    answers 401 and the tables are as they were. *)
Theorem logoutAll_route_deletes_own_sessions (now : Z) (req : Request.t) (d : Db) :
  (success (json (fst (AuthRoutes.logoutAll env now req d))) = true ->
   exists token decoded,
     (JwtUtils.extractTokenFromHeader (Request.authorization req) = Some token
      \/ cookieAccessToken req = Some token)
     /\ JwtUtils.verifyAccessToken env token now = Ok decoded
     /\ users (snd (AuthRoutes.logoutAll env now req d)) = users d
     /\ forall other row,
          refreshTokens (snd (AuthRoutes.logoutAll env now req d)) !! other = Some row
          <-> refreshTokens d !! other = Some row
              /\ RefreshToken.userId row <> Payload.userId (Claims.payload decoded))
  /\ (success (json (fst (AuthRoutes.logoutAll env now req d))) = false ->
      status (fst (AuthRoutes.logoutAll env now req d)) = 401
      /\ snd (AuthRoutes.logoutAll env now req d) = d).
Proof.
  unfold AuthRoutes.logoutAll, AuthRoutes.guarded.
  destruct (authenticateToken env now req) as [req' | r] eqn:Hgate.
  - destruct (authenticateToken_Next env now req req' Hgate)
      as (token & decoded & Hp & _ & Hver & ->).
    unfold AuthController.logoutAll. run_handler. split; [| discriminate].
    intros _. exists token, decoded.
    apply presentedAccessToken_source in Hp.
    split; [assumption |]. split; [assumption |]. split; [reflexivity |].
    intros other row. simpl. rewrite map_lookup_filter_Some. reflexivity.
  - apply authenticateToken_Reply in Hgate as [-> | ->]; simpl;
      (split; [discriminate | auto]).
Qed.

(** X20.  The route [POST /logout] needs a verified access token: for a
    request without one it answers 401 and deletes nothing, although the
    request may carry a stored refresh token in its cookie; and a
    non-empty Bearer token that fails verification blocks it whatever the
    cookies hold. *)
Theorem logout_route_needs_access_token (now : Z) (req : Request.t) (d : Db) :
  (forall r, authenticateToken env now req = Reply r ->
     AuthRoutes.logout env now req d = (r, d) /\ status r = 401)
  /\ (forall token body cookies user msg,
        req = Request.mk body cookies (Some ("Bearer " +:+ token)) user ->
        truthy (Some token) = true ->
        JwtUtils.verifyAccessToken env token now = Throw msg ->
        AuthRoutes.logout env now req d = (accessTokenInvalid, d))
  /\ (forall req', authenticateToken env now req = Next req' ->
        AuthRoutes.logout env now req d = AuthController.logout req d).
Proof.
  unfold AuthRoutes.logout, AuthRoutes.guarded. split; [| split].
  - intros r Hgate. rewrite Hgate. split; [reflexivity |].
    apply authenticateToken_Reply in Hgate as [-> | ->]; reflexivity.
  - intros token body cookies user msg -> Ht Hver.
    rewrite (authenticateToken_run env now _ token
               (presentedAccessToken_bearer body cookies user token Ht) Ht), Hver.
    reflexivity.
  - intros req' Hgate. rewrite Hgate.
    destruct (authenticateToken_Next env now req req' Hgate)
      as (token & decoded & _ & _ & _ & ->).
    reflexivity.
Qed.

(** X21.  The route [GET /profile] sends a profile only for the user named
    in a verified access token: the id of the row it returns is the
    [userId] of the token that the request presents; and it never
    writes. *)
Theorem profile_route_own_profile (now : Z) (req : Request.t) (d : Db) :
  snd (AuthRoutes.profile env now req d) = d
  /\ (forall p, fst (AuthRoutes.profile env now req d) = inr p ->
        ProfileResponse.success p = true ->
        exists token decoded selected,
          (JwtUtils.extractTokenFromHeader (Request.authorization req) = Some token
           \/ cookieAccessToken req = Some token)
          /\ JwtUtils.verifyAccessToken env token now = Ok decoded
          /\ ProfileResponse.data p = Some selected
          /\ Selected.id selected = Payload.userId (Claims.payload decoded))
  /\ (forall r, fst (AuthRoutes.profile env now req d) = inl r -> status r = 401).
Proof.
  unfold AuthRoutes.profile, AuthRoutes.guarded.
  destruct (authenticateToken env now req) as [req' | r] eqn:Hgate.
  - destruct (authenticateToken_Next env now req req' Hgate)
      as (token & decoded & Hp & _ & Hver & ->).
    rewrite (getProfile_run (setUser req (Some (identityOf decoded))) d
               (identityOf decoded) eq_refl).
    simpl.
    split; [reflexivity |]. split; [| discriminate].
    intros p [= <-].
    destruct (findById _ (users d)) as [u |] eqn:Hfound; [| discriminate].
    intros _. exists token, decoded, (Selected.of_user u).
    apply presentedAccessToken_source in Hp.
    apply findById_id in Hfound as [_ Hid]. auto.
  - simpl. split; [reflexivity |]. split; [discriminate |].
    intros r' [= <-].
    apply authenticateToken_Reply in Hgate as [-> | ->]; reflexivity.
Qed.

End Routes.

(** ** The further properties on the fixtures *)

Lemma register_success_writes_witness :
  exists u,
    users (snd (AuthController.register (jwtLib := Fixture.jwt)
                  (bcryptLib := Fixture.bcrypt) Fixture.env Fixture.world
                  (Fixture.credentials "bob@example.com" "pw") Fixture.store))
    = users Fixture.store ++ [u].
Proof.
  destruct (register_success_writes (jwtLib := Fixture.jwt)
              (bcryptLib := Fixture.bcrypt) Fixture.env Fixture.world
              (Fixture.credentials "bob@example.com" "pw") Fixture.store eq_refl)
    as (body & email & password & a & r & e & _ & _ & _ & _ & _ & Husers & _).
  eexists. exact Husers.
Defined.

Lemma register_failure_keeps_row_witness :
  fst (AuthController.register (jwtLib := Fixture.jwt) (bcryptLib := Fixture.bcrypt)
         Scenario.envNoAccessSecret Scenario.later
         (Fixture.credentials "bob@example.com" "pw")
         (snd (AuthController.register (jwtLib := Fixture.jwt)
                 (bcryptLib := Fixture.bcrypt) Scenario.envNoAccessSecret Fixture.world
                 (Fixture.credentials "bob@example.com" "pw") Fixture.store)))
  = failure 409 "User with this email already exists" "USER_EXISTS".
Proof.
  apply (register_failure_keeps_row (jwtLib := Fixture.jwt)
           (bcryptLib := Fixture.bcrypt) Scenario.envNoAccessSecret
           Fixture.world Scenario.later
           (Fixture.credentials "bob@example.com" "pw") Fixture.store
           (Body.mk (Some "bob@example.com"%string) (Some "pw"%string) None None)
           "bob@example.com" "pw");
    reflexivity.
Defined.

Lemma login_writes_on_success_only_witness :
  users (snd (AuthController.login (jwtLib := Fixture.jwt) (bcryptLib := Fixture.bcrypt)
                Fixture.env Fixture.world
                (Fixture.credentials "alice@example.com" "pw123456") Fixture.store))
  = users Fixture.store.
Proof.
  destruct (proj2 (login_writes_on_success_only (jwtLib := Fixture.jwt)
                     (bcryptLib := Fixture.bcrypt) Fixture.env Fixture.world
                     (Fixture.credentials "alice@example.com" "pw123456")
                     Fixture.store) eq_refl)
    as (body & email & user & a & r & e & _ & _ & _ & _ & Husers & _).
  exact Husers.
Defined.

Lemma login_deactivated_witness :
  AuthController.login (jwtLib := Fixture.jwt) (bcryptLib := Fixture.bcrypt)
    Fixture.env Fixture.world
    (Fixture.credentials "bob@example.com" "hunter22") Scenario.storeWithBob
  = (AuthController.accountDeactivated, Scenario.storeWithBob).
Proof.
  apply (login_deactivated (jwtLib := Fixture.jwt) (bcryptLib := Fixture.bcrypt)
           Fixture.env Fixture.world
           (Fixture.credentials "bob@example.com" "hunter22") Scenario.storeWithBob
           (Body.mk (Some "bob@example.com"%string) (Some "hunter22"%string) None None)
           "bob@example.com" Scenario.inactiveBob);
    reflexivity.
Defined.

Lemma login_then_refresh_witness :
  success (json (fst (AuthController.refreshToken (jwtLib := Scenario.jwt)
                        Fixture.env Scenario.later
                        (Fixture.cookieRequest Scenario.issuedRefreshToken)
                        (snd (AuthController.login (jwtLib := Scenario.jwt)
                                (bcryptLib := Fixture.bcrypt) Fixture.env Fixture.world
                                (Fixture.credentials "alice@example.com" "pw123456")
                                Fixture.store)))))
  = true.
Proof.
  destruct (login_then_refresh (jwtLib := Scenario.jwt) (bcryptLib := Fixture.bcrypt)
              Fixture.env Fixture.world Scenario.later
              (Fixture.credentials "alice@example.com" "pw123456")
              (Fixture.cookieRequest Scenario.issuedRefreshToken) Fixture.store
              (NoDup_singleton _) eq_refl)
    as (a & r & row & Hcookies & Hrow & Hrefresh).
  vm_compute in Hcookies. injection Hcookies as _ Hr. subst r.
  vm_compute in Hrow. injection Hrow as Hrow. subst row.
  apply Hrefresh.
  - reflexivity.
  - reflexivity.
  - exists Scenario.issuedRefreshClaims. vm_compute. reflexivity.
  - vm_compute. discriminate.
Defined.

Lemma login_then_logout_witness :
  snd (AuthController.logout
         (Fixture.cookieRequest Scenario.issuedRefreshToken)
         (snd (AuthController.login (jwtLib := Fixture.jwt)
                 (bcryptLib := Fixture.bcrypt) Fixture.env Fixture.world
                 (Fixture.credentials "alice@example.com" "pw123456")
                 Fixture.store)))
  = Fixture.store.
Proof.
  destruct (login_then_logout (jwtLib := Fixture.jwt) (bcryptLib := Fixture.bcrypt)
              Fixture.env Fixture.world
              (Fixture.credentials "alice@example.com" "pw123456")
              (Fixture.cookieRequest Scenario.issuedRefreshToken) Fixture.store
              eq_refl)
    as (a & r & Hcookies & Hlogout).
  vm_compute in Hcookies. injection Hcookies as _ Hr. subst r.
  apply Hlogout; reflexivity.
Defined.

Lemma logout_revokes_one_session_witness :
  fst (AuthController.refreshToken (jwtLib := Fixture.jwt) Fixture.env Fixture.world
         (Fixture.bearerRequest Fixture.aliceToken)
         (snd (AuthController.logout (Fixture.cookieRequest Fixture.aliceToken)
                 Fixture.store)))
  = AuthController.refreshTokenExpired.
Proof.
  apply (proj1 (proj2 (proj2
           (logout_revokes_one_session (jwtLib := Fixture.jwt) Fixture.env
              (Fixture.cookieRequest Fixture.aliceToken) Fixture.store
              Fixture.aliceToken eq_refl eq_refl)))
           Fixture.world (Fixture.bearerRequest Fixture.aliceToken)
           Fixture.aliceRefreshClaims);
    vm_compute; reflexivity.
Defined.

Lemma refreshToken_cookie_first_witness :
  AuthController.refreshToken (jwtLib := Fixture.jwt) Fixture.env Fixture.world
    (Request.mk None (Some (Cookies.mk None (Some Fixture.aliceToken)))
       (Some "Bearer forged"%string) None) Fixture.store
  = AuthController.refreshToken (jwtLib := Fixture.jwt) Fixture.env Fixture.world
      (Request.mk None (Some (Cookies.mk None (Some Fixture.aliceToken))) None None)
      Fixture.store.
Proof.
  apply (proj1 (refreshToken_cookie_first (jwtLib := Fixture.jwt) Fixture.env
                  Fixture.world Fixture.store None
                  (Some (Cookies.mk None (Some Fixture.aliceToken))) None)).
  reflexivity.
Defined.

Lemma authenticateToken_sound_witness :
  exists token decoded,
    JwtUtils.verifyAccessToken (jwtLib := Fixture.jwt) Fixture.env token 1700000000500
    = Ok decoded
    /\ Middleware.identityOf decoded = Scenario.aliceIdentity.
Proof.
  destruct (proj1 (authenticateToken_sound (jwtLib := Fixture.jwt) Fixture.env
                     1700000000500 (Scenario.withCookies (Some Scenario.accessToken) None))
              (Middleware.setUser (Scenario.withCookies (Some Scenario.accessToken) None)
                 (Some Scenario.aliceIdentity))
              eq_refl)
    as (token & decoded & _ & _ & Hver & Hreq).
  exists token, decoded. split; [exact Hver |].
  unfold Middleware.identityOf, Scenario.aliceIdentity.
  injection Hreq as Hid Hemail. now rewrite <- Hid, <- Hemail.
Defined.

Lemma authenticateToken_header_first_witness :
  Middleware.authenticateToken (jwtLib := Fixture.jwt) Fixture.env 1700000000500
    (Request.mk None (Some (Cookies.mk (Some Scenario.accessToken) None))
       (Some ("Bearer " +:+ "forged")) None)
  = Middleware.Reply accessTokenInvalid.
Proof.
  apply (proj1 (authenticateToken_header_first (jwtLib := Fixture.jwt) Fixture.env
                  1700000000500 "forged" None
                  (Some (Cookies.mk (Some Scenario.accessToken) None)) None eq_refl)
           "Invalid access token").
  reflexivity.
Defined.

Lemma optionalAuth_never_rejects_witness :
  Middleware.optionalAuth (jwtLib := Fixture.jwt) Fixture.env 1700000000500
    (Request.mk None None (Some ("Bearer " +:+ "forged")) (Some Scenario.aliceIdentity))
  = Middleware.Next
      (Request.mk None None (Some ("Bearer " +:+ "forged")) None).
Proof.
  apply (proj1 (proj2 (optionalAuth_never_rejects (jwtLib := Fixture.jwt) Fixture.env
                         1700000000500
                         (Request.mk None None (Some ("Bearer " +:+ "forged"))
                            (Some Scenario.aliceIdentity))))).
  reflexivity.
Defined.

Lemma getTokenExpiration_not_before_now_witness :
  1700000000000 <= 1700604800000.
Proof.
  apply (getTokenExpiration_not_before_now 1700000000000 1700604800000 "7d").
  reflexivity.
Defined.

Lemma access_token_expires_witness :
  exists token,
    JwtUtils.generateAccessToken (jwtLib := Fixture.jwt) Fixture.env
      (Payload.mk "u1" (Some "alice@example.com"%string) None) 1700000000000
    = Ok token
    /\ JwtUtils.verifyAccessToken (jwtLib := Fixture.jwt) Fixture.env token 1700000900000
       = Throw "Invalid access token".
Proof.
  apply (access_token_expires (jwtLib := Fixture.jwt) Fixture.env
           "u1" "alice@example.com" "access-secret" 900 1700000000000 1700000900000);
    vm_compute; try reflexivity; discriminate.
Defined.

Lemma getProfile_ignores_passwords_witness :
  exists identity u,
    Request.user (Scenario.identified Scenario.aliceIdentity) = Some identity
    /\ User.id u = AuthUser.userId identity.
Proof.
  destruct (proj2 (proj2 (getProfile_ignores_passwords
                            (Scenario.identified Scenario.aliceIdentity)
                            [Fixture.alice] (refreshTokens Fixture.store)
                            (fun _ => "redacted"%string))) eq_refl)
    as (identity & u & Huser & _ & Hid & _).
  exists identity, u. split; assumption.
Defined.

Lemma register_then_getProfile_witness :
  exists body email password,
    Request.body (Fixture.credentials "bob@example.com" "pw") = Some body
    /\ Body.email body = Some email
    /\ Body.password body = Some password
    /\ fst (ProfileController.getProfile
              (Scenario.identified (AuthUser.mk "u2" "bob@example.com"))
              (snd (AuthController.register (jwtLib := Fixture.jwt)
                      (bcryptLib := Fixture.bcrypt) Fixture.env Fixture.world
                      (Fixture.credentials "bob@example.com" "pw") Fixture.store)))
       = ProfileResponse.mk 200 true "Profile retrieved successfully" None
           (Some (Selected.mk (cuid Fixture.world) email (Body.firstName body)
                    (Body.lastName body) true (clock Fixture.world 0)
                    (clock Fixture.world 0))).
Proof.
  apply (register_then_getProfile (jwtLib := Fixture.jwt) (bcryptLib := Fixture.bcrypt)
           Fixture.env Fixture.world (Fixture.credentials "bob@example.com" "pw")
           (Scenario.identified (AuthUser.mk "u2" "bob@example.com")) Fixture.store
           (AuthUser.mk "u2" "bob@example.com"));
    reflexivity.
Defined.

Lemma fixture_owners_exist : ownersExist Fixture.store.
Proof.
  intros token row Hrow. unfold Fixture.store in Hrow. cbn [refreshTokens] in Hrow.
  apply lookup_singleton_Some in Hrow as [_ <-].
  exists Fixture.alice. reflexivity.
Qed.

Lemma handlers_keep_users_unique_witness :
  uniqueUsers
    (users (snd (AuthController.register (jwtLib := Fixture.jwt)
                   (bcryptLib := Fixture.bcrypt) Fixture.env Fixture.world
                   (Fixture.credentials "bob@example.com" "pw") Fixture.store))).
Proof.
  apply (proj1 (handlers_keep_users_unique (jwtLib := Fixture.jwt)
                  (bcryptLib := Fixture.bcrypt) Fixture.env Fixture.world
                  (Fixture.credentials "bob@example.com" "pw") Fixture.store
                  (conj (NoDup_singleton _) (NoDup_singleton _)))).
Defined.

Lemma handlers_keep_owners_witness :
  ownersExist
    (snd (AuthController.login (jwtLib := Fixture.jwt) (bcryptLib := Fixture.bcrypt)
            Fixture.env Fixture.world
            (Fixture.credentials "alice@example.com" "pw123456") Fixture.store)).
Proof.
  apply (proj1 (proj2 (handlers_keep_owners (jwtLib := Fixture.jwt)
                         (bcryptLib := Fixture.bcrypt) Fixture.env Fixture.world
                         (Fixture.credentials "alice@example.com" "pw123456")
                         Fixture.store fixture_owners_exist))).
Defined.

Lemma logoutAll_route_deletes_own_sessions_witness :
  exists token decoded,
    JwtUtils.verifyAccessToken (jwtLib := Fixture.jwt) Fixture.env token 1700000000500
    = Ok decoded
    /\ users (snd (AuthRoutes.logoutAll (jwtLib := Fixture.jwt) Fixture.env
                     1700000000500 (Scenario.authorized None) Fixture.store))
       = users Fixture.store.
Proof.
  destruct (proj1 (logoutAll_route_deletes_own_sessions (jwtLib := Fixture.jwt)
                     Fixture.env 1700000000500 (Scenario.authorized None)
                     Fixture.store) eq_refl)
    as (token & decoded & _ & Hver & Husers & _).
  exists token, decoded. split; assumption.
Defined.

Lemma logout_route_needs_access_token_witness :
  AuthRoutes.logout (jwtLib := Fixture.jwt) Fixture.env 1700000000500
    (Fixture.cookieRequest Fixture.aliceToken) Fixture.store
  = (accessTokenRequired, Fixture.store).
Proof.
  apply (proj1 (logout_route_needs_access_token (jwtLib := Fixture.jwt) Fixture.env
                  1700000000500 (Fixture.cookieRequest Fixture.aliceToken)
                  Fixture.store)).
  reflexivity.
Defined.

Lemma profile_route_own_profile_witness :
  exists token decoded selected,
    JwtUtils.verifyAccessToken (jwtLib := Fixture.jwt) Fixture.env token 1700000000500
    = Ok decoded
    /\ Selected.id selected = Payload.userId (Claims.payload decoded).
Proof.
  destruct (proj1 (proj2 (profile_route_own_profile (jwtLib := Fixture.jwt)
                            Fixture.env 1700000000500 (Scenario.authorized None)
                            Fixture.store))
              (ProfileResponse.mk 200 true "Profile retrieved successfully" None
                 (Some (Selected.of_user Fixture.alice)))
              eq_refl eq_refl)
    as (token & decoded & selected & _ & Hver & _ & Hid).
  exists token, decoded, selected. split; assumption.
Defined.

Lemma register_then_login_witness :
  exists body email password,
    Request.body (Fixture.credentials "bob@example.com" "pw") = Some body
    /\ Body.email body = Some email
    /\ Body.password body = Some password
    /\ (fst (AuthController.login (jwtLib := Fixture.jwt) (bcryptLib := Fixture.bcrypt)
               Fixture.env Scenario.later (Fixture.credentials "bob@example.com" "pw")
               (snd (AuthController.register (jwtLib := Fixture.jwt)
                       (bcryptLib := Fixture.bcrypt) Fixture.env Fixture.world
                       (Fixture.credentials "bob@example.com" "pw") Fixture.store)))
        = internalError
        \/ exists access refresh,
             fst (AuthController.login (jwtLib := Fixture.jwt)
                    (bcryptLib := Fixture.bcrypt) Fixture.env Scenario.later
                    (Fixture.credentials "bob@example.com" "pw")
                    (snd (AuthController.register (jwtLib := Fixture.jwt)
                            (bcryptLib := Fixture.bcrypt) Fixture.env Fixture.world
                            (Fixture.credentials "bob@example.com" "pw")
                            Fixture.store)))
             = sessionResponse Fixture.env 200 "Login successful"
                 (registeredRow (bcryptLib := Fixture.bcrypt) Fixture.world body
                    email password) access refresh).
Proof.
  apply (register_then_login (jwtLib := Fixture.jwt) (bcryptLib := Fixture.bcrypt)
           Fixture.env Fixture.world Scenario.later
           (Fixture.credentials "bob@example.com" "pw") Fixture.store eq_refl).
  intros password. simpl. apply String.eqb_refl.
Defined.

(** ** [login] on untyped bodies *)

Section UntypedLogin.
Context {jwtLib : Jsonwebtoken} {bcryptLib : Bcryptjs} (env : Env).

(** On a body whose fields are strings the handler is the typed one. *)
Lemma login_untyped_typed (w : World) (req : Request.t) (d : Db) :
  AuthControllerUntyped.login env w
    (option_map RawBody.of_body (Request.body req)) d
  = AuthController.login env w req d.
Proof.
  unfold AuthControllerUntyped.login, AuthController.login.
  destruct (Request.body req) as [body |]; [| reflexivity]. simpl.
  destruct (Body.email body) as [[| c e] |]; try reflexivity.
  destruct (Body.password body) as [[| c' p] |]; reflexivity.
Qed.

(** C7 (as amended).  For every login request whose [password], when it is
    present, is a string, what [login] sends when no user has the supplied
    email is what it sends when a user has it, is active, and the supplied
    password does not match the stored hash: the same status, error and
    message, and no cookie; it is 401, INVALID_CREDENTIALS, "Invalid email
    or password" when the request carries a non-empty email string and a
    non-empty password. *)
Theorem login_failure_indistinguishable_for_strings (w1 w2 : World)
    (body : option RawBody.t) (d1 d2 : Db) :
  (forall b v, body = Some b -> RawBody.password b = Some v ->
     exists p, v = VString p) ->
  (forall b e, body = Some b -> RawBody.email b = Some (VString e) ->
     findByEmail e (users d1) = None) ->
  (forall b e p, body = Some b -> RawBody.email b = Some (VString e) ->
     RawBody.password b = Some (VString p) ->
     exists user, findByEmail e (users d2) = Some user
                  /\ User.isActive user = true
                  /\ bcrypt_compare p (User.password user) = false) ->
  fst (AuthControllerUntyped.login env w1 body d1)
  = fst (AuthControllerUntyped.login env w2 body d2)
  /\ (forall b e, body = Some b -> RawBody.email b = Some (VString e) ->
        truthy (Some e) = true -> truthyValue (RawBody.password b) = true ->
        fst (AuthControllerUntyped.login env w1 body d1)
        = AuthController.invalidCredentials).
Proof.
  intros Htyped Hnone Hwrong. unfold AuthControllerUntyped.login.
  destruct body as [b |]; [| split; [reflexivity | discriminate]].
  specialize (Htyped b). specialize (Hnone b). specialize (Hwrong b).
  cbv zeta.
  destruct (RawBody.email b) as [email |] eqn:Hemail;
    [| split; [reflexivity | intros b' e [= <-]; congruence]].
  destruct (RawBody.password b) as [password |] eqn:Hpassword.
  2:{ cbn [truthyValue]. rewrite orb_true_r.
      split; [reflexivity | intros b' e [= <-] _ _; rewrite Hpassword; discriminate]. }
  destruct (Htyped password eq_refl eq_refl) as [p ->].
  destruct email as [e | n | flag | |].
  - specialize (Hnone e eq_refl eq_refl).
    destruct (Hwrong e p eq_refl eq_refl eq_refl) as (user & Hfound & Hact & Hcmp).
    cbn [truthyValue].
    destruct (truthy (Some e)) eqn:He; cbn [negb orb];
      [| split; [reflexivity | intros b' e' [= <-] Hem; congruence]].
    destruct (truthy (Some p)) eqn:Hp; cbn [negb orb];
      [| split; [reflexivity
                | intros b' e' [= <-] _ _; rewrite Hpassword; cbn [truthyValue];
                  congruence]].
    unfold AuthControllerUntyped.user_findUnique_email, AuthControllerUntyped.compare.
    run_handler. rewrite Hnone, Hfound, Hact. simpl. rewrite Hcmp.
    split; [reflexivity | intros; reflexivity].
  - split; [| intros b' e [= <-]; congruence].
    destruct (negb (truthyValue (Some (VNumber n)))
              || negb (truthyValue (Some (VString p))))%bool; reflexivity.
  - split; [| intros b' e [= <-]; congruence].
    destruct (negb (truthyValue (Some (VBool flag)))
              || negb (truthyValue (Some (VString p))))%bool; reflexivity.
  - split; [reflexivity | intros b' e [= <-]; congruence].
  - split; [| intros b' e [= <-]; congruence].
    destruct (negb (truthyValue (Some VObject))
              || negb (truthyValue (Some (VString p))))%bool; reflexivity.
Qed.

End UntypedLogin.

Lemma login_failure_indistinguishable_for_strings_witness :
  fst (AuthControllerUntyped.login (jwtLib := Fixture.jwt) (bcryptLib := Fixture.bcrypt)
         Fixture.env Fixture.world
         (Some (RawBody.mk (Some (VString "alice@example.com")) (Some (VString "guess"))))
         (mkDb [] ∅))
  = fst (AuthControllerUntyped.login (jwtLib := Fixture.jwt)
           (bcryptLib := Fixture.bcrypt) Fixture.env Fixture.world
           (Some (RawBody.mk (Some (VString "alice@example.com"))
                    (Some (VString "guess"))))
           Fixture.store).
Proof.
  apply (login_failure_indistinguishable_for_strings (jwtLib := Fixture.jwt)
           (bcryptLib := Fixture.bcrypt) Fixture.env Fixture.world Fixture.world
           (Some (RawBody.mk (Some (VString "alice@example.com"))
                    (Some (VString "guess"))))
           (mkDb [] ∅) Fixture.store).
  - intros b v [= <-] [= <-]. exists "guess"%string. reflexivity.
  - intros b e _ _. reflexivity.
  - intros b e p [= <-] [= <-] [= <-].
    exists Fixture.alice. vm_compute. repeat split.
Defined.

(** C7, the claim as stated fails: with the number 1 as password the
    request passes the presence check; for an email that no user has the
    answer is 401 INVALID_CREDENTIALS, and for the email of an active user
    [bcrypt.compare] refuses the number and the answer is 500
    INTERNAL_ERROR.  The two answers tell the cases apart. *)
Lemma login_number_password_distinguishes :
  findByEmail "alice@example.com" (users (mkDb [] ∅)) = None
  /\ findByEmail "alice@example.com" (users Fixture.store) = Some Fixture.alice
  /\ User.isActive Fixture.alice = true
  /\ fst (AuthControllerUntyped.login (jwtLib := Fixture.jwt)
            (bcryptLib := Fixture.bcrypt) Fixture.env Fixture.world
            (Some (RawBody.mk (Some (VString "alice@example.com")) (Some (VNumber 1))))
            (mkDb [] ∅))
     = AuthController.invalidCredentials
  /\ fst (AuthControllerUntyped.login (jwtLib := Fixture.jwt)
            (bcryptLib := Fixture.bcrypt) Fixture.env Fixture.world
            (Some (RawBody.mk (Some (VString "alice@example.com")) (Some (VNumber 1))))
            Fixture.store)
     = internalError
  /\ AuthController.invalidCredentials <> internalError.
Proof.
  repeat split. discriminate.
Qed.

(** C6, the claim as stated fails: a token minted 999 ms into a second with
    the duration of 15 minutes, and verified 899.501 s later, before the
    duration has elapsed, is refused as expired, although the signature is
    accepted: its [exp] claim is the minting second plus 900. *)
Lemma access_token_expired_within_duration :
  1700000000999 <= 1700000900500
  /\ 1700000900500 < 1700000000999 + 900 * 1000
  /\ timespan (Jsonwebtoken := Fixture.jwt) (JwtUtils.accessExpiresIn Fixture.env)
     = Some 900
  /\ JwtUtils.generateAccessToken (jwtLib := Fixture.jwt) Fixture.env
       (Payload.mk "u1" (Some "alice@example.com"%string) None) 1700000000999
     = Ok Scenario.accessToken
  /\ jws_verify (Jsonwebtoken := Fixture.jwt) "access-secret" Scenario.accessToken
     = Some Fixture.aliceAccessClaims
  /\ JwtUtils.verifyAccessToken (jwtLib := Fixture.jwt) Fixture.env
       Scenario.accessToken 1700000900500
     = Throw "Invalid access token".
Proof.
  repeat split; try reflexivity; vm_compute; discriminate.
Qed.
